(** * Order-intake workflow of the bakery storefront (src/api/src/App.tsx)

    A shallow embedding of the client-side logic of [App]: the cart held in
    [orderData.selectedItems], the running [total], date selection, phone
    validation, order submission, the confirmation message and the parsing
    of an order's items text done by the admin edit screen.

    Conventions of the embedding.
    - A JavaScript string is a [string]; one [ascii] stands for one UTF-16
      code unit below 256 (the Latin-1 range).
    - A JavaScript number holding a count is a [Z]; a price or a total is a
      [Q].  Arithmetic on counts is exact, as that of the program's doubles
      is on integers below [2^53]; a numeral is printed in plain decimal
      digits, as the program prints integers below [10^21].  Amounts are
      exact rationals where the program has doubles: sums are kept in the
      order in which the program adds, and printing an amount is left to
      the platform.
    - A plain object used as a dictionary ([Record<string, number>],
      [Availability]) is a list of its own properties kept in the order in
      which [Object.entries] enumerates them.  The members that such an
      object inherits from [Object.prototype] are followed in [RawCart];
      the handlers on dictionaries of numbers are their restriction to
      the keys that are not names of such members.
    - React state is threaded explicitly: a handler is a function from the
      state to the next state and the effects it emitted. *)

From Stdlib Require Import ZArith QArith List String Ascii Bool Lia.
From Stdlib Require Import DecimalString DecimalPos Lqa.
Import ListNotations.

Local Open Scope string_scope.
Local Open Scope Z_scope.

(** ** Characters and strings *)

Module JsString.

Definition code (c : ascii) : N := N_of_ascii c.

(** [\d] of a regular expression: the ten ASCII digits. *)
Definition is_digit (c : ascii) : bool :=
  ((48 <=? code c) && (code c <=? 57))%N.

(** Line terminators among the code units below 256: LF and CR. *)
Definition is_line_terminator (c : ascii) : bool :=
  ((code c =? 10) || (code c =? 13))%N.

(** [\s] and the characters removed by [trim], below 256:
    TAB, LF, VT, FF, CR, space and the no-break space. *)
Definition is_space (c : ascii) : bool :=
  (((9 <=? code c) && (code c <=? 13)) || (code c =? 32) || (code c =? 160))%N.

(** [.] of a regular expression without the [s] flag. *)
Definition is_dot (c : ascii) : bool := negb (is_line_terminator c).

Definition LF : ascii := ascii_of_N 10.

Fixpoint forallb_string (p : ascii -> bool) (s : string) : bool :=
  match s with
  | EmptyString => true
  | String c s' => p c && forallb_string p s'
  end.

Fixpoint drop_while (p : ascii -> bool) (s : string) : string :=
  match s with
  | EmptyString => EmptyString
  | String c s' => if p c then drop_while p s' else s
  end.

Fixpoint rev_string (s : string) (acc : string) : string :=
  match s with
  | EmptyString => acc
  | String c s' => rev_string s' (String c acc)
  end.

(** [String.prototype.trim]. *)
Definition trim (s : string) : string :=
  rev_string (drop_while is_space (rev_string (drop_while is_space s) "")) "".

(** [Array.prototype.join]. *)
Fixpoint join (sep : string) (l : list string) : string :=
  match l with
  | [] => ""
  | [x] => x
  | x :: l' => x ++ sep ++ join sep l'
  end.

(** Value of a run of decimal digits, most significant first. *)
Fixpoint digits_value (s : string) (acc : N) : N :=
  match s with
  | EmptyString => acc
  | String c s' => digits_value s' (10 * acc + (code c - 48))%N
  end.

(** [parseInt] on a string of decimal digits, as captured by [(\d+)]. *)
Definition parseInt (s : string) : Z := Z.of_N (digits_value s 0).

(** [String(n)] and the interpolation [${n}] of an integer. *)
Definition Number_toString (n : Z) : string := NilZero.string_of_int (Z.to_int n).

(** [padStart(w, "0")] as used by date formatting. *)
Fixpoint zeros (n : nat) : string :=
  match n with O => "" | S n' => String "0" (zeros n') end.

Definition pad0 (w : nat) (s : string) : string :=
  zeros (w - String.length s) ++ s.

(** Is [p] a prefix of [s]? *)
Fixpoint starts_with (p s : string) : bool :=
  match p, s with
  | EmptyString, _ => true
  | String a p', String b s' => Ascii.eqb a b && starts_with p' s'
  | String _ _, EmptyString => false
  end.

(** Does [p] occur in [s]? *)
Fixpoint includes (p s : string) : bool :=
  starts_with p s ||
  match s with
  | EmptyString => false
  | String _ s' => includes p s'
  end.

(** The first [n] code units of [s]. *)
Fixpoint take (n : nat) (s : string) : string :=
  match n, s with
  | S n', String c s' => String c (take n' s')
  | _, _ => ""
  end.

(** Boolean of a string: only the empty string is falsy. *)
Definition truthy (s : string) : bool :=
  match s with EmptyString => false | _ => true end.

End JsString.

(** ** Plain objects used as dictionaries *)

Module JsObject.
Import JsString.

Definition t (V : Type) : Type := list (string * V).

(** An array index is the canonical decimal numeral of an integer in
    [0, 2^32 - 2]; such keys are enumerated first, in ascending order. *)
Definition array_index (k : string) : option N :=
  match k with
  | EmptyString => None
  | String c rest =>
      if forallb_string is_digit k
         && (negb (code c =? 48)%N || match rest with EmptyString => true | _ => false end)
         && (Nat.leb (String.length k) 10)
         && (digits_value k 0 <=? 4294967294)%N
      then Some (digits_value k 0) else None
  end.

Definition empty {V} : t V := [].

(** The own property [k] of [o], [None] when it has none: this is [o[k]],
    with [None] for [undefined], when [k] is not the name of a member
    that [o] inherits. *)
Fixpoint get {V} (o : t V) (k : string) : option V :=
  match o with
  | [] => None
  | (k', v) :: o' => if String.eqb k' k then Some v else get o' k
  end.

Definition has {V} (o : t V) (k : string) : bool :=
  match get o k with Some _ => true | None => false end.

(** [delete o[k]]. *)
Fixpoint remove {V} (o : t V) (k : string) : t V :=
  match o with
  | [] => []
  | (k', v) :: o' => if String.eqb k' k then remove o' k else (k', v) :: remove o' k
  end.

(** Overwrite the value of a key that is present, keeping its place. *)
Fixpoint replace {V} (o : t V) (k : string) (v : V) : t V :=
  match o with
  | [] => []
  | (k', v') :: o' =>
      if String.eqb k' k then (k, v) :: o' else (k', v') :: replace o' k v
  end.

(** Place of a new array-index key: before the first key that is a
    larger index or is not an index at all. *)
Fixpoint insert_index {V} (o : t V) (n : N) (k : string) (v : V) : t V :=
  match o with
  | [] => [(k, v)]
  | (k', v') :: o' =>
      match array_index k' with
      | Some m => if (n <? m)%N then (k, v) :: o
                  else (k', v') :: insert_index o' n k v
      | None => (k, v) :: o
      end
  end.

(** Define or overwrite the own property [k]: this is [o[k] = v] when no
    inherited setter answers to [k], and [k] as the key of an object
    literal. *)
Definition set {V} (o : t V) (k : string) (v : V) : t V :=
  if has o k then replace o k v
  else match array_index k with
       | Some n => insert_index o n k v
       | None => (o ++ [(k, v)])%list
       end.

(** [Object.entries(o)] and the spread [{ ...o }]. *)
Definition entries {V} (o : t V) : list (string * V) := o.
Definition spread {V} (o : t V) : t V := o.

Definition keys {V} (o : t V) : list string := map fst o.

End JsObject.

(** ** Regular expressions

    The two patterns of the program are sequences of literal characters,
    character classes, greedy repetitions of a class and capture groups,
    anchored at both ends.  [run] is a backtracking matcher in
    continuation-passing style: the continuation receives the rest of the
    input and the captures made so far, and a repetition first tries to
    take one more character before it gives control to the continuation. *)

Module Regex.
Import JsString.

Inductive t : Type :=
| Eps
| Chr (c : ascii)
| Class (p : ascii -> bool)
| Seq (r1 r2 : t)
| Plus (p : ascii -> bool)
| Group (r : t).

Definition Captures : Type := list string.
Definition Cont : Type := string -> Captures -> option Captures.

Fixpoint plus_run (p : ascii -> bool) (s : string) (k : string -> option Captures)
  : option Captures :=
  match s with
  | EmptyString => None
  | String c s' =>
      if p c then
        match plus_run p s' k with
        | Some res => Some res
        | None => k s'
        end
      else None
  end.

Fixpoint run (r : t) (s : string) (caps : Captures) (k : Cont) : option Captures :=
  match r with
  | Eps => k s caps
  | Chr c =>
      match s with
      | String a s' => if Ascii.eqb a c then k s' caps else None
      | EmptyString => None
      end
  | Class p =>
      match s with
      | String a s' => if p a then k s' caps else None
      | EmptyString => None
      end
  | Seq r1 r2 => run r1 s caps (fun s' caps' => run r2 s' caps' k)
  | Plus p => plus_run p s (fun s' => k s' caps)
  | Group r' =>
      run r' s caps
        (fun s' caps' =>
           k s' (caps' ++ [take (String.length s - String.length s') s])%list)
  end.

(** [r{n}]. *)
Fixpoint times (n : nat) (r : t) : t :=
  match n with
  | O => Eps
  | S n' => Seq r (times n' r)
  end.

(** [s.match(/^r$/)]: the captures of the groups, or [None]. *)
Definition exec (r : t) (s : string) : option Captures :=
  run r s [] (fun rest caps => match rest with EmptyString => Some caps | _ => None end).

(** [/^r$/.test(s)]. *)
Definition test (r : t) (s : string) : bool :=
  match exec r s with Some _ => true | None => false end.

End Regex.

(** ** Calendar dates

    A [Date] of the program is used for its local calendar day only
    ([isSunday], [format], the day grid of the picker). *)

Module Date.
Import JsString.

Record t : Type := mk { year : Z; month : Z; day : Z }.

(** Number of days from 1970-01-01 to the given civil date. *)
Definition days_from_civil (d : t) : Z :=
  let y := if month d <=? 2 then year d - 1 else year d in
  let era := y / 400 in
  let yoe := y - era * 400 in
  let mp := (month d + 9) mod 12 in
  let doy := (153 * mp + 2) / 5 + day d - 1 in
  let doe := yoe * 365 + yoe / 4 - yoe / 100 + doy in
  era * 146097 + doe - 719468.

(** [getDay()]: 0 is Sunday; 1970-01-01 was a Thursday. *)
Definition getDay (d : t) : Z := (days_from_civil d + 4) mod 7.

(** [isSunday] of date-fns. *)
Definition isSunday (d : t) : bool := getDay d =? 0.

(** [format(d, 'yyyy-MM-dd')] of date-fns. *)
Definition format_iso (d : t) : string :=
  pad0 4 (Number_toString (year d)) ++ "-" ++
  pad0 2 (Number_toString (month d)) ++ "-" ++
  pad0 2 (Number_toString (day d)).

(** [format(d, 'dd/MM/yyyy')] of date-fns. *)
Definition format_br (d : t) : string :=
  pad0 2 (Number_toString (day d)) ++ "/" ++
  pad0 2 (Number_toString (month d)) ++ "/" ++
  pad0 4 (Number_toString (year d)).

(** Is the day of [a] before the day of [b]? *)
Definition day_before (a b : t) : bool := days_from_civil a <? days_from_civil b.

End Date.

(** ** Data model *)

Inductive AvailabilityStatus : Type := available | sold_out.

Definition Availability : Type := JsObject.t AvailabilityStatus.

Module Product.
Record t : Type := mk {
  id : string;
  name : string;
  price : Q;
  description : option string;
  image : option string
}.
End Product.

Module Order.
Record t : Type := mk {
  id : Z;
  customer_name : string;
  customer_phone : string;
  order_date : string;
  order_time : string;
  items : string;
  total : Q;
  payment_method : string;
  created_at : string
}.
End Order.

Inductive PaymentMethod : Type := zelle | cash.

Inductive Page : Type := schedule | order | success | admin.

Module OrderData.
Record t : Type := mk {
  name : string;
  phone : string;
  selectedItems : JsObject.t Z;
  paymentMethod : PaymentMethod;
  time : string
}.

Definition with_selectedItems (items : JsObject.t Z) (d : t) : t :=
  mk (name d) (phone d) items (paymentMethod d) (time d).

Definition with_time (tm : string) (d : t) : t :=
  mk (name d) (phone d) (selectedItems d) (paymentMethod d) tm.

Definition with_phone (ph : string) (d : t) : t :=
  mk (name d) ph (selectedItems d) (paymentMethod d) (time d).

(** The initial value given to [useState]. *)
Definition initial : t := mk "" "" JsObject.empty zelle "".
End OrderData.

(** Values produced by [res.json()]. *)
#[local] Unset Elimination Schemes.
Inductive Json : Type :=
| JNull
| JBool (b : bool)
| JNum (q : Q)
| JStr (s : string)
| JArr (l : list Json)
| JObj (o : list (string * Json)).
#[local] Set Elimination Schemes.

(** Body of the POST to [/api/orders]. *)
Module Payload.
Record t : Type := mk {
  customer_name : string;
  customer_phone : string;
  order_date : string;
  order_time : string;
  items : string;
  total : Q;
  payment_method : PaymentMethod
}.
End Payload.

(** What the handlers do to the outside world. *)
Inductive Effect : Type :=
| PostOrder (body : Payload.t)      (* fetch('/api/orders', { method: 'POST', ... }) *)
| Alert (message : Json)            (* alert(message) *)
| PushState (url : string)          (* window.history.pushState({}, '', url) *)
| OpenWhatsApp (message : string)   (* window.open of the wa.me link carrying the message *)
| UpdateOrder (order : Order.t)     (* fetch('/api/admin/orders/update', { method: 'POST', ... }) *)
| DeleteOrder (id : Z).             (* fetch(`/api/admin/orders/${order.id}`, { method: 'DELETE' }) *)

(** How the awaited [fetch] of [submitOrder] ends: it rejects, or it
    resolves to a response with its [ok] flag and the outcome of
    [res.json()] ([None] when the body does not parse). *)
Inductive FetchOutcome : Type :=
| NetworkError
| Response (ok : bool) (json : option Json).

(** ** The component *)

Module App.
Import JsString.

Definition TIME_SLOTS : list string :=
  [ "08:00"; "08:30"; "09:00"; "09:30"; "10:00"; "10:30"; "11:00"; "11:30";
    "12:00"; "12:30"; "13:00"; "13:30"; "14:00"; "14:30"; "15:00"; "15:30";
    "16:00"; "16:30"; "17:00"; "17:30"; "18:00" ].

(** [Array.prototype.includes] on strings. *)
Definition Array_includes (l : list string) (x : string) : bool :=
  existsb (String.eqb x) l.

Record State : Type := mkState {
  page : Page;
  selectedDate : option Date.t;
  availability : Availability;
  loading : bool;
  phoneError : string;
  products : list Product.t;
  editingOrder : option Order.t;
  editingItems : JsObject.t Z;
  orderData : OrderData.t
}.

Definition setPage (p : Page) (st : State) : State :=
  mkState p (selectedDate st) (availability st) (loading st) (phoneError st)
          (products st) (editingOrder st) (editingItems st) (orderData st).

Definition setSelectedDate (d : option Date.t) (st : State) : State :=
  mkState (page st) d (availability st) (loading st) (phoneError st)
          (products st) (editingOrder st) (editingItems st) (orderData st).

Definition setLoading (b : bool) (st : State) : State :=
  mkState (page st) (selectedDate st) (availability st) b (phoneError st)
          (products st) (editingOrder st) (editingItems st) (orderData st).

Definition setPhoneError (e : string) (st : State) : State :=
  mkState (page st) (selectedDate st) (availability st) (loading st) e
          (products st) (editingOrder st) (editingItems st) (orderData st).

Definition setProducts (ps : list Product.t) (st : State) : State :=
  mkState (page st) (selectedDate st) (availability st) (loading st) (phoneError st)
          ps (editingOrder st) (editingItems st) (orderData st).

Definition setEditingOrder (o : option Order.t) (st : State) : State :=
  mkState (page st) (selectedDate st) (availability st) (loading st) (phoneError st)
          (products st) o (editingItems st) (orderData st).

Definition setEditingItems (m : JsObject.t Z) (st : State) : State :=
  mkState (page st) (selectedDate st) (availability st) (loading st) (phoneError st)
          (products st) (editingOrder st) m (orderData st).

(** [setOrderData(prev => f(prev))]. *)
Definition setOrderData (f : OrderData.t -> OrderData.t) (st : State) : State :=
  mkState (page st) (selectedDate st) (availability st) (loading st) (phoneError st)
          (products st) (editingOrder st) (editingItems st) (f (orderData st)).

(** The state on mount, before any fetch resolves. *)
Definition initialState : State :=
  mkState schedule None JsObject.empty false "" [] None JsObject.empty OrderData.initial.

(** [products.find(p => String(p.id) === String(id))]. *)
Definition findById (ps : list Product.t) (id : string) : option Product.t :=
  find (fun p => String.eqb (Product.id p) id) ps.

(** [products.find(prod => prod.name === productName)]. *)
Definition findByName (ps : list Product.t) (nm : string) : option Product.t :=
  find (fun p => String.eqb (Product.name p) nm) ps.

(** The [total] computed on every render. *)
Definition total_of (items : JsObject.t Z) (ps : list Product.t) : Q :=
  fold_left
    (fun (acc : Q) (e : string * Z) =>
       let '(id, qty) := e in
       let product := findById ps id in
       let price := match product with Some p => Product.price p | None => 0%Q end in
       (acc + price * inject_Z qty)%Q)
    (JsObject.entries items) 0%Q.

Definition total (st : State) : Q :=
  total_of (OrderData.selectedItems (orderData st)) (products st).

(** [handleDateSelect], the [onChange] of the date picker. *)
Definition handleDateSelect (date : option Date.t) (st : State) : State :=
  match date with
  | None => st
  | Some d =>
      let dateStr := Date.format_iso d in
      match JsObject.get (availability st) dateStr with
      | Some sold_out => st
      | _ => setSelectedDate (Some d) st
      end
  end.

(** [filterDate={(date) => !isSunday(date)}]. *)
Definition filterDate (date : Date.t) : bool := negb (Date.isSunday date).

(** A click on a day of the inline [DatePicker] rendered with
    [minDate={new Date()}], [filterDate] and [onChange={handleDateSelect}]:
    react-datepicker disables the days before [minDate] and those rejected
    by [filterDate], and calls [onChange] for the others only. *)
Definition datePickerClick (today date : Date.t) (st : State) : State :=
  if Date.day_before date today then st
  else if filterDate date then handleDateSelect (Some date) st
  else st.

(** [proceedToOrder]. *)
Definition proceedToOrder (st : State) : State * list Effect :=
  match selectedDate st with
  | Some d =>
      if truthy (OrderData.time (orderData st)) then
        let dateStr := Date.format_iso d in
        (setPage order st,
         [PushState ("?data=" ++ dateStr ++ "&hora=" ++ OrderData.time (orderData st))])
      else
        (st, [Alert (JStr ("Por favor, selecione um hor" ++ String "225" "rio."))])
  | None => (st, [])
  end.

(** [updateItemQuantity] on a dictionary of numbers, for an [id] that is
    not the name of a member of [Object.prototype]: [prev.selectedItems[id]]
    is then the own property or [undefined].  [RawCart.updateItemQuantity]
    is the handler for every [id]. *)
Definition updateItemQuantity_prev (id : string) (delta : Z) (prev : OrderData.t)
  : OrderData.t :=
  let current :=
    match JsObject.get (OrderData.selectedItems prev) id with
    | Some q => if q =? 0 then 0 else q      (* prev.selectedItems[id] || 0 *)
    | None => 0
    end in
  let newQty := current + delta in
  let newItems := JsObject.spread (OrderData.selectedItems prev) in
  let newItems :=
    if newQty <=? 0 then JsObject.remove newItems id
    else JsObject.set newItems id newQty in
  OrderData.with_selectedItems newItems prev.

Definition updateItemQuantity (id : string) (delta : Z) (st : State) : State :=
  setOrderData (updateItemQuantity_prev id delta) st.

(** [/^\(\d{3}\) \d{3}-\d{4}$/]. *)
Definition phoneRegex : Regex.t :=
  Regex.Seq (Regex.Chr "(")
  (Regex.Seq (Regex.times 3 (Regex.Class is_digit))
  (Regex.Seq (Regex.Chr ")")
  (Regex.Seq (Regex.Chr " ")
  (Regex.Seq (Regex.times 3 (Regex.Class is_digit))
  (Regex.Seq (Regex.Chr "-")
             (Regex.times 4 (Regex.Class is_digit))))))).

(** [validatePhone]. *)
Definition validatePhone (phone : string) : bool := Regex.test phoneRegex phone.

(** The template [`${qty}x ${p?.name}`]; a missing product renders as
    the text [undefined]. *)
Definition itemLine (ps : list Product.t) (e : string * Z) : string :=
  let '(id, qty) := e in
  let p := findById ps id in
  Number_toString qty ++ "x " ++
  match p with Some p => Product.name p | None => "undefined" end.

(** [itemsSummary], built alike by [submitOrder] and [sendWhatsApp]. *)
Definition itemsSummary (items : JsObject.t Z) (ps : list Product.t) : string :=
  join (String LF "") (map (itemLine ps) (JsObject.entries items)).

Definition phoneErrorMessage : string :=
  "Por favor, insira um telefone v" ++ String "225" "lido no formato (XXX) XXX-XXXX".

Definition connectionError : string := "Erro de conex" ++ String "227" "o".

Definition processingError : string := "Erro ao processar pedido".

(** Boolean of a value, for [err.error || "..."]. *)
Definition Json_truthy (v : Json) : bool :=
  match v with
  | JNull => false
  | JBool b => b
  | JNum q => negb (Qeq_bool q 0)
  | JStr s => truthy s
  | JArr _ => true
  | JObj _ => true
  end.

(** [err.error]: [None] when the access throws (on [null]),
    [Some None] when it yields [undefined]. *)
Definition Json_error_field (err : Json) : option (option Json) :=
  match err with
  | JNull => None
  | JObj o => Some (JsObject.get o "error")
  | _ => Some None
  end.

Definition buildPayload (d : Date.t) (st : State) : Payload.t :=
  Payload.mk
    (OrderData.name (orderData st))
    (OrderData.phone (orderData st))
    (Date.format_iso d)
    (OrderData.time (orderData st))
    (itemsSummary (OrderData.selectedItems (orderData st)) (products st))
    (total st)
    (OrderData.paymentMethod (orderData st)).

(** [submitOrder], run to completion against the outcome of its one
    [fetch].  The calls to [console] are left out. *)
Definition submitOrder (reply : FetchOutcome) (st : State) : State * list Effect :=
  match selectedDate st with
  | None => (st, [])
  | Some d =>
      if Qeq_bool (total st) 0 then (st, [])
      else if negb (validatePhone (OrderData.phone (orderData st))) then
        (setPhoneError phoneErrorMessage st, [])
      else
        let request := PostOrder (buildPayload d st) in
        let st1 := setLoading true st in
        let '(st2, shown) :=
          match reply with
          | NetworkError => (st1, [Alert (JStr connectionError)])
          | Response true _ => (setPage success st1, [])
          | Response false None => (st1, [Alert (JStr connectionError)])
          | Response false (Some err) =>
              match Json_error_field err with
              | None => (st1, [Alert (JStr connectionError)])
              | Some (Some v) =>
                  (st1, [Alert (if Json_truthy v then v else JStr processingError)])
              | Some None => (st1, [Alert (JStr processingError)])
              end
          end in
        (setLoading false st2, request :: shown)
  end.

Definition paymentText (m : PaymentMethod) : string :=
  match m with
  | zelle => "Via Zelle. Our Zelle: 7708757348."
  | cash => "Cash (Pagamento na entrega/retirada)."
  end.

Definition messageHeader (st : State) : string :=
  let nl := String LF "" in
  let dateStr := match selectedDate st with Some d => Date.format_br d | None => "" end in
  "Ol" ++ String "225" "! Gostaria de confirmar meu pedido:" ++ nl ++
  "*Cliente:* " ++ OrderData.name (orderData st) ++ nl ++
  "*Telefone:* " ++ OrderData.phone (orderData st) ++ nl ++
  "*Data:* " ++ dateStr ++ nl ++
  "*Hor" ++ String "225" "rio:* " ++ OrderData.time (orderData st) ++ nl ++
  "*Itens:*" ++ nl.

Section Message.

(** [Number.prototype.toFixed] at two digits is the platform's: it rounds
    the stored double, whose decimal expansion the exact amounts of this
    model do not carry, so the message is stated for any such function. *)
Variable Number_toFixed2 : Q -> string.

Definition messageFooter (st : State) : string :=
  let nl := String LF "" in
  nl ++ nl ++
  "*Total:* $" ++ Number_toFixed2 (total st) ++ nl ++ nl ++
  "*Pagamento:* " ++ paymentText (OrderData.paymentMethod (orderData st)) ++ nl ++
  "_Pedido sujeito " ++ String "224" (" confirma" ++ String "231" (String "227" "o._")).

(** The [message] of [sendWhatsApp]. *)
Definition whatsAppMessage (st : State) : string :=
  messageHeader st ++
  itemsSummary (OrderData.selectedItems (orderData st)) (products st) ++
  messageFooter st.

(** [sendWhatsApp]. *)
Definition sendWhatsApp (st : State) : State * list Effect :=
  (st, [OpenWhatsApp (whatsAppMessage st)]).

End Message.

(** [/^(\d+)x\s+(.+)$/]. *)
Definition itemRegex : Regex.t :=
  Regex.Seq (Regex.Group (Regex.Plus is_digit))
  (Regex.Seq (Regex.Chr "x")
  (Regex.Seq (Regex.Plus is_space)
             (Regex.Group (Regex.Plus is_dot)))).

(** [s.split(/, |\n/)]: [cur] is the piece being read. *)
Fixpoint split_from (s : string) (cur : string) : list string :=
  match s with
  | EmptyString => [cur]
  | String c s' =>
      if Ascii.eqb c LF then cur :: split_from s' ""
      else
        match s' with
        | String c' s'' =>
            if Ascii.eqb c "," && Ascii.eqb c' " " then cur :: split_from s'' ""
            else split_from s' (cur ++ String c "")
        | EmptyString => split_from s' (cur ++ String c "")
        end
  end.

Definition split_items (s : string) : list string := split_from s "".

(** The body of the [forEach] of [startEditingOrder]. *)
Definition parsePart (ps : list Product.t) (itemsMap : JsObject.t Z) (p : string)
  : JsObject.t Z :=
  match Regex.exec itemRegex p with
  | Some [m1; m2] =>
      let qty := parseInt m1 in
      let productName := trim m2 in
      match findByName ps productName with
      | Some product => JsObject.set itemsMap (Product.id product) qty
      | None => itemsMap
      end
  | _ => itemsMap
  end.

(** The [itemsMap] that [startEditingOrder] derives from an items text. *)
Definition parseItems (ps : list Product.t) (itemsText : string) : JsObject.t Z :=
  let parts := filter truthy (split_items itemsText) in
  fold_left (parsePart ps) parts JsObject.empty.


Section Mount.

(** [new Date(s)] of the platform: [None] is an invalid date. *)
Variable Date_parse : string -> option Date.t.

(** The part of the mount effect that reads the query string, once the
    catalog and the settings have been fetched: [dateParam] and
    [timeParam] are [params.get('data')] and [params.get('hora')]. *)
Definition fetchData (dateParam timeParam : option string) (st : State) : State :=
  match dateParam with
  | Some dp =>
      if truthy dp then
        match Date_parse (dp ++ "T12:00:00") with
        | Some date =>
            if negb (Date.isSunday date) then
              let st1 := setSelectedDate (Some date) st in
              match timeParam with
              | Some tp =>
                  if truthy tp && Array_includes TIME_SLOTS tp then
                    setPage order (setOrderData (OrderData.with_time tp) st1)
                  else st1
              | None => st1
              end
            else st
        | None => st
        end
      else st
  | None => st
  end.

End Mount.

End App.

(** ** Statements about the cart *)

Module Cart.
Import App.

(** A tap on [+] or on [-] of a product row. *)
Inductive Op : Type :=
| Increment (id : string)
| Decrement (id : string).

Definition step (st : State) (op : Op) : State :=
  match op with
  | Increment id => updateItemQuantity id 1 st
  | Decrement id => updateItemQuantity id (-1) st
  end.

Definition run (ops : list Op) (st : State) : State := fold_left step ops st.

Definition cartOf (st : State) : JsObject.t Z := OrderData.selectedItems (orderData st).

(** Every stored quantity is a positive integer. *)
Definition positive (c : JsObject.t Z) : Prop :=
  Forall (fun e : string * Z => 0 < snd e) (JsObject.entries c).



(** Price of a product id in a catalog snapshot: that of its first
    entry, zero when it has none. *)
Definition currentCatalogPrice (ps : list Product.t) (id : string) : Q :=
  match findById ps id with
  | Some p => Product.price p
  | None => 0%Q
  end.

(** Sum of quantity times price over the entries of a cart. *)
Fixpoint sumEntries (ps : list Product.t) (es : list (string * Z)) : Q :=
  match es with
  | [] => 0%Q
  | (id, qty) :: es' => (inject_Z qty * currentCatalogPrice ps id + sumEntries ps es')%Q
  end.

(** The entries whose id has an entry in the catalog. *)
Definition known (ps : list Product.t) (es : list (string * Z)) : list (string * Z) :=
  filter (fun e => match findById ps (fst e) with Some _ => true | None => false end) es.

End Cart.

(** ** Statements about links *)

Module Link.
Import App.

(** Is the [hora] parameter present and one of the slots? *)
Definition slotOk (tp : option string) : bool :=
  match tp with
  | Some t => Array_includes TIME_SLOTS t
  | None => false
  end.

End Link.

(** ** Statements about phone numbers *)

Module Phone.
Import JsString.

Definition digits (n : nat) (s : string) : Prop :=
  String.length s = n /\ forallb_string is_digit s = true.

(** The shape [(DDD) DDD-DDDD]. *)
Definition shape (s : string) : Prop :=
  exists a b c : string,
    digits 3 a /\ digits 3 b /\ digits 4 c /\
    s = "(" ++ a ++ ") " ++ b ++ "-" ++ c.

End Phone.

(** ** The draft of testable property 5 *)

Module Example.
Import App.

Definition catalog : list Product.t :=
  [ Product.mk "A" "A" 5 None None; Product.mk "B" "B" 3 None None ].

(** The cart after two taps on [+] of A and one on [+] of B. *)
Definition items : JsObject.t Z :=
  JsObject.set (JsObject.set JsObject.empty "A" 2) "B" 1.

Definition draft : OrderData.t :=
  OrderData.mk "Ana" "(770) 111-2222" items zelle "10:00".

Definition monday : Date.t := Date.mk 2026 3 2.

Definition state : State :=
  mkState order (Some monday) JsObject.empty false "" catalog None JsObject.empty draft.

Definition lines (l : list string) : string := JsString.join (String JsString.LF "") l.

(** The reply of the order store when the day is full. *)
Definition diaEsgotado : Json := JObj [("error", JStr "Dia esgotado")].

(** A platform parser that knows one date. *)
Definition parseOnly (s : string) : option Date.t :=
  if String.eqb s "2026-03-02T12:00:00" then Some monday else None.

End Example.

(** ** Statements about the items text *)

Module RoundTrip.
Import JsString App.

(** A product name that survives [split], the pattern and [trim]: not
    empty, free of line terminators and of the separator [", "], with no
    white space at either end. *)
Definition plainName (n : string) : bool :=
  truthy n && forallb_string is_dot n && negb (includes ", " n) && String.eqb (trim n) n.

(** The text [r] does not go on with a character of the class [p]. *)
Definition stopsAt (p : ascii -> bool) (r : string) : Prop :=
  match r with
  | EmptyString => True
  | String c _ => p c = false
  end.

(** A piece of text that [split] does not cut: no line feed and no
    [", "] inside. *)
Definition separatorFree (l : string) : bool :=
  forallb_string (fun c => negb (Ascii.eqb c LF)) l && negb (includes ", " l).

(** The product of id [id] has a plain name, and looking that name up
    leads back to [id]. *)
Definition resolves (ps : list Product.t) (id : string) : bool :=
  match findById ps id with
  | Some p =>
      plainName (Product.name p) &&
      match findByName ps (Product.name p) with
      | Some p' => String.eqb (Product.id p') id
      | None => false
      end
  | None => false
  end.

(** An entry of a cart whose line can be read back. *)
Definition readable (ps : list Product.t) (e : string * Z) : Prop :=
  0 < snd e /\ resolves ps (fst e) = true.

(** A cart as the data model has it: distinct keys, positive quantities. *)
Definition cartSelection (c : JsObject.t Z) : Prop :=
  NoDup (JsObject.keys c) /\ Cart.positive c.

(** The itemized lines of the confirmation message. *)
Definition itemizedLines (st : State) : string :=
  itemsSummary (OrderData.selectedItems (orderData st)) (products st).

Definition commaCatalog : list Product.t :=
  [ Product.mk "1" "Bolo, grande" 20 None None ].

Definition commaCart : JsObject.t Z := JsObject.set JsObject.empty "1" 2.

(** Two products that share a name. *)
Definition twinCatalog : list Product.t :=
  [ Product.mk "1" "Broa" 4 None None; Product.mk "2" "Broa" 6 None None ].

Definition twinCart : JsObject.t Z := JsObject.set JsObject.empty "2" 3.

(** A catalog of one product, of id 1 and of the given name, and the
    items text of two units of it read back. *)
Definition readBack (name : string) : JsObject.t Z :=
  let ps := [ Product.mk "1" name 20 None None ] in
  parseItems ps (itemsSummary (JsObject.set JsObject.empty "1" 2) ps).

Definition commaState : State :=
  mkState success (Some Example.monday) JsObject.empty false "" commaCatalog None
          JsObject.empty (OrderData.mk "Ana" "(770) 111-2222" commaCart zelle "10:00").

End RoundTrip.

(** ** The phone field: [formatPhoneNumber] and [handlePhoneChange] *)

Module Contact.
Import JsString App.

(** [s.replace(/[^\d]/g, '')] keeps the characters of the class. *)
Fixpoint filter_string (p : ascii -> bool) (s : string) : string :=
  match s with
  | EmptyString => EmptyString
  | String c s' => if p c then String c (filter_string p s') else filter_string p s'
  end.

(** [s.slice(n)]. *)
Fixpoint drop (n : nat) (s : string) : string :=
  match n, s with
  | S n', String _ s' => drop n' s'
  | _, _ => s
  end.

(** [s.slice(a, b)] for indices that are not negative. *)
Definition slice (a b : nat) (s : string) : string := take (b - a) (drop a s).

(** [formatPhoneNumber]. *)
Definition formatPhoneNumber (value : string) : string :=
  if negb (truthy value) then value
  else
    let phoneNumber := filter_string is_digit value in
    let phoneNumberLength := String.length phoneNumber in
    if Nat.ltb phoneNumberLength 4 then phoneNumber
    else if Nat.ltb phoneNumberLength 7 then
      "(" ++ slice 0 3 phoneNumber ++ ") " ++ drop 3 phoneNumber
    else
      "(" ++ slice 0 3 phoneNumber ++ ") " ++ slice 3 6 phoneNumber ++ "-" ++
      slice 6 10 phoneNumber.

(** [handlePhoneChange], on the text of the input. *)
Definition handlePhoneChange (value : string) (st : State) : State :=
  setPhoneError "" (setOrderData (OrderData.with_phone (formatPhoneNumber value)) st).

(** The digits of a text, in order. *)
Definition digitsOf (s : string) : string := filter_string is_digit s.

End Contact.

(** ** The cart with every value that a dictionary can come to hold

    [selectedItems] is a plain object: [selectedItems[id]] finds the
    members that the object inherits from [Object.prototype] when it has
    no own property of that name, and [+] on such a member concatenates
    texts.  This part follows the handlers on those values too. *)

Module RawCart.
Import JsString.

(** A value stored under a key: a number, [NaN], or the text of an
    inherited member followed by the numerals appended to it. *)
Inductive JsValue : Type :=
| VNum (n : Z)
| VNaN
| VText (member : string) (numerals : list Z).

(** The names that a plain object inherits from [Object.prototype]. *)
Definition Object_prototype : list string :=
  [ "constructor"; "__defineGetter__"; "__defineSetter__"; "hasOwnProperty";
    "__lookupGetter__"; "__lookupSetter__"; "isPrototypeOf";
    "propertyIsEnumerable"; "toString"; "valueOf"; "__proto__";
    "toLocaleString" ].

Definition inherited (k : string) : bool := existsb (String.eqb k) Object_prototype.

(** What [o[k]] evaluates to. *)
Inductive Lookup : Type :=
| Own (v : JsValue)
| Inherited (member : string)
| Undefined.

Definition lookup (o : JsObject.t JsValue) (k : string) : Lookup :=
  match JsObject.get o k with
  | Some v => Own v
  | None => if inherited k then Inherited k else Undefined
  end.

(** [(x || 0) + delta]: zero, [NaN] and [undefined] are falsy; a member or
    a text is truthy and [+] appends the numeral to its text. *)
Definition orZeroPlus (x : Lookup) (delta : Z) : JsValue :=
  match x with
  | Own (VNum q) => VNum ((if q =? 0 then 0 else q) + delta)
  | Own VNaN => VNum (0 + delta)
  | Own (VText m ns) => VText m (ns ++ [delta])
  | Inherited m => VText m [delta]
  | Undefined => VNum (0 + delta)
  end.

(** [v <= 0]: a text that is no numeral, and [NaN], compare false. *)
Definition leZero (v : JsValue) : bool :=
  match v with
  | VNum n => n <=? 0
  | _ => false
  end.

(** [o[k] = v] by assignment, for [v] a number or a text: without an own
    property [__proto__] the inherited setter runs, and it ignores what
    is not an object. *)
Definition assign (o : JsObject.t JsValue) (k : string) (v : JsValue) : JsObject.t JsValue :=
  if String.eqb k "__proto__" && negb (JsObject.has o k) then o
  else JsObject.set o k v.

Record Draft : Type := mkDraft {
  name : string;
  phone : string;
  selectedItems : JsObject.t JsValue;
  paymentMethod : PaymentMethod;
  time : string
}.

(** [updateItemQuantity]: the function given to [setOrderData]. *)
Definition updateItemQuantity (id : string) (delta : Z) (prev : Draft) : Draft :=
  let newQty := orZeroPlus (lookup (selectedItems prev) id) delta in
  let newItems := JsObject.spread (selectedItems prev) in
  let newItems :=
    if leZero newQty then JsObject.remove newItems id
    else assign newItems id newQty in
  mkDraft (name prev) (phone prev) newItems (paymentMethod prev) (time prev).

Definition step (d : Draft) (op : Cart.Op) : Draft :=
  match op with
  | Cart.Increment id => updateItemQuantity id 1 d
  | Cart.Decrement id => updateItemQuantity id (-1) d
  end.

Definition run (ops : list Cart.Op) (d : Draft) : Draft := fold_left step ops d.

Definition opId (op : Cart.Op) : string :=
  match op with
  | Cart.Increment id => id
  | Cart.Decrement id => id
  end.

(** A dictionary of numbers as a dictionary of values, and a draft of the
    component as a draft of values. *)
Definition numbers (c : JsObject.t Z) : JsObject.t JsValue :=
  map (fun e : string * Z => (fst e, VNum (snd e))) c.

Definition ofOrderData (d : OrderData.t) : Draft :=
  mkDraft (OrderData.name d) (OrderData.phone d)
          (numbers (OrderData.selectedItems d))
          (OrderData.paymentMethod d) (OrderData.time d).

Definition emptyDraft : Draft := ofOrderData OrderData.initial.

(** Every stored value is a positive number. *)
Definition positiveNumbers (c : JsObject.t JsValue) : Prop :=
  Forall (fun e : string * JsValue => exists q, snd e = VNum q /\ 0 < q)
         (JsObject.entries c).

(** Every stored value is a positive number, or the text of the inherited
    member that its key names with numerals after it. *)
Definition cartValue (e : string * JsValue) : Prop :=
  match snd e with
  | VNum q => 0 < q
  | VNaN => False
  | VText m _ => m = fst e /\ inherited (fst e) = true
  end.

Definition cartValues (c : JsObject.t JsValue) : Prop :=
  Forall cartValue (JsObject.entries c).

(** An operation on a product whose id is not the name of a member of
    [Object.prototype]. *)
Definition plainOp (op : Cart.Op) : Prop := inherited (opId op) = false.

(** *** The order editor of the admin panel on such values *)

(** [Math.max(0, (x || 0) - 1)]: [-] turns a text that is no numeral into
    [NaN], which [Math.max] hands on. *)
Definition maxZeroMinusOne (x : Lookup) : JsValue :=
  match x with
  | Own (VNum q) => VNum (Z.max 0 ((if q =? 0 then 0 else q) - 1))
  | Own VNaN => VNum (Z.max 0 (0 - 1))
  | Own (VText _ _) => VNaN
  | Inherited _ => VNaN
  | Undefined => VNum (Z.max 0 (0 - 1))
  end.

(** [v === 0]. *)
Definition isZero (v : JsValue) : bool :=
  match v with
  | VNum n => n =? 0
  | _ => false
  end.

(** The [newItems] of the [-] button of a row of the order editor. *)
Definition decrementEditingItems (pid : string) (editingItems : JsObject.t JsValue)
  : JsObject.t JsValue :=
  let newQty := maxZeroMinusOne (lookup editingItems pid) in
  let newItems := JsObject.set (JsObject.spread editingItems) pid newQty in
  if isZero newQty then JsObject.remove newItems pid else newItems.

(** The [newItems] of the [+] button of a row of the order editor. *)
Definition incrementEditingItems (pid : string) (editingItems : JsObject.t JsValue)
  : JsObject.t JsValue :=
  JsObject.set (JsObject.spread editingItems) pid
               (orZeroPlus (lookup editingItems pid) 1).

End RawCart.

(** ** The cart of the earlier storefront (src/unnamed/part_000) *)

Module LegacyCart.
Import RawCart.

(** [addToCart]: the function given to [setCart].  The key of an object
    literal defines an own property, whatever its name. *)
Definition addToCart (id : string) (prev : JsObject.t JsValue) : JsObject.t JsValue :=
  JsObject.set (JsObject.spread prev) id (orZeroPlus (lookup prev id) 1).

(** [removeFromCart]: the function given to [setCart]. *)
Definition removeFromCart (id : string) (prev : JsObject.t JsValue) : JsObject.t JsValue :=
  let newCart := JsObject.spread prev in
  match lookup newCart id with
  | Own (VNum q) =>
      if 1 <? q then assign newCart id (VNum (q - 1))    (* newCart[id]-- *)
      else JsObject.remove newCart id
  | _ => JsObject.remove newCart id    (* NaN, a text that is no numeral,
                                          a member and undefined: > 1 is false *)
  end.

End LegacyCart.

(** ** The total against a catalog, spelled out

    The sum of section 4.3, by its own recursion over the catalog and over
    the entries, and [total] with the property read that can throw made
    explicit. *)

Module Pricing.
Import App.

(** The price that a catalog gives to an id: that of its first product of
    that id, zero when it has none. *)
Fixpoint priceIn (ps : list Product.t) (id : string) : Q :=
  match ps with
  | [] => 0%Q
  | p :: rest => if String.eqb (Product.id p) id then Product.price p else priceIn rest id
  end.

(** Does the catalog have a product of that id? *)
Fixpoint listed (ps : list Product.t) (id : string) : bool :=
  match ps with
  | [] => false
  | p :: rest => String.eqb (Product.id p) id || listed rest id
  end.

(** Quantity times price of one entry. *)
Definition lineAmount (ps : list Product.t) (e : string * Z) : Q :=
  (priceIn ps (fst e) * inject_Z (snd e))%Q.

(** The amounts of the entries added up from zero, first entry first. *)
Fixpoint sumFrom (acc : Q) (ps : list Product.t) (es : list (string * Z)) : Q :=
  match es with
  | [] => acc
  | e :: rest => sumFrom (acc + lineAmount ps e)%Q ps rest
  end.

Definition sumOfLines (ps : list Product.t) (es : list (string * Z)) : Q :=
  sumFrom 0%Q ps es.

(** How an evaluation ends. *)
Inductive Completion (A : Type) : Type :=
| Normal (value : A)
| Throw (error : string).
Arguments Normal {A} value.
Arguments Throw {A} error.

(** [product.price]: reading a property of [undefined] throws. *)
Definition readPrice (product : option Product.t) : Completion Q :=
  match product with
  | Some p => Normal (Product.price p)
  | None => Throw "TypeError"
  end.

(** [product ? product.price : 0]. *)
Definition priceOrZero (product : option Product.t) : Completion Q :=
  match product with
  | Some _ => readPrice product
  | None => Normal 0%Q
  end.

(** The callback of the [reduce] of [total], and the [reduce]: a throw of
    the callback ends it. *)
Definition totalStep (ps : list Product.t) (acc : Completion Q) (e : string * Z)
  : Completion Q :=
  match acc with
  | Throw err => Throw err
  | Normal a =>
      let '(id, qty) := e in
      let product := findById ps id in
      match priceOrZero product with
      | Throw err => Throw err
      | Normal price => Normal (a + price * inject_Z qty)%Q
      end
  end.

Definition totalEvaluated (items : JsObject.t Z) (ps : list Product.t) : Completion Q :=
  fold_left (totalStep ps) (JsObject.entries items) (Normal 0%Q).

End Pricing.

(** ** The admin panel: order editor and password gate *)

Module Admin.
Import JsString App.

Definition with_items_total (items : string) (tot : Q) (o : Order.t) : Order.t :=
  Order.mk (Order.id o) (Order.customer_name o) (Order.customer_phone o)
           (Order.order_date o) (Order.order_time o) items tot
           (Order.payment_method o) (Order.created_at o).

(** The [summary] of [updateEditingOrderItems]. *)
Definition editSummary (newItems : JsObject.t Z) (ps : list Product.t) : string :=
  join (String LF "")
       (map (itemLine ps)
            (filter (fun e : string * Z => 0 <? snd e) (JsObject.entries newItems))).

(** The [newTotal] of [updateEditingOrderItems]. *)
Definition editTotal (newItems : JsObject.t Z) (ps : list Product.t) : Q :=
  fold_left
    (fun (acc : Q) (e : string * Z) =>
       let '(id, qty) := e in
       let p := findById ps id in
       (acc + match p with Some p => Product.price p * inject_Z qty | None => 0 end)%Q)
    (JsObject.entries newItems) 0%Q.

(** [updateEditingOrderItems]. *)
Definition updateEditingOrderItems (newItems : JsObject.t Z) (st : State) : State :=
  match editingOrder st with
  | None => st
  | Some o =>
      setEditingOrder
        (Some (with_items_total (editSummary newItems (products st))
                                (editTotal newItems (products st)) o))
        st
  end.

(** [editingItems[p.id] || 0], the [qty] of a product row, for a [p.id]
    that is not the name of a member of [Object.prototype];
    [RawCart.decrementEditingItems] and [RawCart.incrementEditingItems]
    are the dictionaries of the two buttons for every [p.id]. *)
Definition editingQty (pid : string) (st : State) : Z :=
  match JsObject.get (editingItems st) pid with
  | Some q => if q =? 0 then 0 else q
  | None => 0
  end.

(** The [-] button of a product row of the order editor. *)
Definition decrementEditing (pid : string) (st : State) : State :=
  let newQty := Z.max 0 (editingQty pid st - 1) in
  let newItems := JsObject.set (JsObject.spread (editingItems st)) pid newQty in
  let newItems := if newQty =? 0 then JsObject.remove newItems pid else newItems in
  updateEditingOrderItems newItems (setEditingItems newItems st).

(** The [+] button of a product row of the order editor. *)
Definition incrementEditing (pid : string) (st : State) : State :=
  let newItems :=
    JsObject.set (JsObject.spread (editingItems st)) pid (editingQty pid st + 1) in
  updateEditingOrderItems newItems (setEditingItems newItems st).

(** The state of the password gate, beside the state of the component. *)
Record Session : Type := mkSession {
  app : State;
  isAdminAuthenticated : bool;
  adminPassword : string;
  settings : JsObject.t string
}.

Inductive GateEffect : Type :=
| FetchAdminOrders                (* fetchAdminOrders() *)
| AlertText (message : string).   (* alert(message) *)

(** [settings.admin_password || 'admin123']. *)
Definition effectivePassword (s : JsObject.t string) : string :=
  match JsObject.get s "admin_password" with
  | Some p => if truthy p then p else "admin123"
  | None => "admin123"
  end.

(** The [Entrar] button. *)
Definition loginClick (g : Session) : Session * list GateEffect :=
  if String.eqb (adminPassword g) (effectivePassword (settings g)) then
    (mkSession (app g) true (adminPassword g) (settings g), [FetchAdminOrders])
  else (g, [AlertText "Senha incorreta"]).

(** [handleLogout]. *)
Definition handleLogout (g : Session) : Session :=
  mkSession (setPage schedule (app g)) false "" (settings g).

(** The gear button of the header. *)
Definition toggleAdmin (g : Session) : Session :=
  mkSession
    (setPage (match page (app g) with admin => schedule | _ => admin end) (app g))
    (isAdminAuthenticated g) "" (settings g).

(** Typing in the password field. *)
Definition typePassword (p : string) (g : Session) : Session :=
  mkSession (app g) (isAdminAuthenticated g) p (settings g).

(** Is the panel, and not the password form, what the admin page shows? *)
Definition panelShown (g : Session) : bool :=
  match page (app g) with
  | admin => isAdminAuthenticated g
  | _ => false
  end.

End Admin.

(** ** The workflow as a whole

    The events that the rendered page lets happen.  A handler runs up to
    its [await]; what it does once the awaited request has settled is an
    event of its own, so that other events come in between.  An event that
    the page in view does not offer leaves the state as it is.  Taps are
    on dictionaries of numbers: see [plainEvent]. *)

Module Workflow.
Import JsString App Contact.

Definition with_name (nm : string) (d : OrderData.t) : OrderData.t :=
  OrderData.mk nm (OrderData.phone d) (OrderData.selectedItems d)
               (OrderData.paymentMethod d) (OrderData.time d).

Definition with_paymentMethod (m : PaymentMethod) (d : OrderData.t) : OrderData.t :=
  OrderData.mk (OrderData.name d) (OrderData.phone d) (OrderData.selectedItems d)
               m (OrderData.time d).

Definition setAvailability (a : Availability) (st : State) : State :=
  mkState (page st) (selectedDate st) a (loading st) (phoneError st)
          (products st) (editingOrder st) (editingItems st) (orderData st).

(** [availability[format(selectedDate, 'yyyy-MM-dd')] === 'sold_out']. *)
Definition selectedSoldOut (st : State) : bool :=
  match selectedDate st with
  | Some d =>
      match JsObject.get (availability st) (Date.format_iso d) with
      | Some sold_out => true
      | _ => false
      end
  | None => false
  end.

(** The slot buttons are rendered when a date is selected and it is not
    sold out. *)
Definition slotsShown (st : State) : bool :=
  match selectedDate st with
  | Some _ => negb (selectedSoldOut st)
  | None => false
  end.

(** [disabled] of the button that calls [proceedToOrder]. *)
Definition proceedDisabled (st : State) : bool :=
  match selectedDate st with
  | None => true
  | Some _ => negb (truthy (OrderData.time (orderData st))) || selectedSoldOut st
  end.

(** The fields of the order under edit that an input or a select sets. *)
Inductive OrderField : Type :=
| customer_name
| customer_phone
| order_date
| order_time
| payment_method.

(** [{...editingOrder, field: value}]. *)
Definition with_field (f : OrderField) (value : string) (o : Order.t) : Order.t :=
  match f with
  | customer_name =>
      Order.mk (Order.id o) value (Order.customer_phone o) (Order.order_date o)
               (Order.order_time o) (Order.items o) (Order.total o)
               (Order.payment_method o) (Order.created_at o)
  | customer_phone =>
      Order.mk (Order.id o) (Order.customer_name o) value (Order.order_date o)
               (Order.order_time o) (Order.items o) (Order.total o)
               (Order.payment_method o) (Order.created_at o)
  | order_date =>
      Order.mk (Order.id o) (Order.customer_name o) (Order.customer_phone o) value
               (Order.order_time o) (Order.items o) (Order.total o)
               (Order.payment_method o) (Order.created_at o)
  | order_time =>
      Order.mk (Order.id o) (Order.customer_name o) (Order.customer_phone o)
               (Order.order_date o) value (Order.items o) (Order.total o)
               (Order.payment_method o) (Order.created_at o)
  | payment_method =>
      Order.mk (Order.id o) (Order.customer_name o) (Order.customer_phone o)
               (Order.order_date o) (Order.order_time o) (Order.items o)
               (Order.total o) value (Order.created_at o)
  end.

(** [{...editingOrder, total: value}]. *)
Definition with_total (value : Q) (o : Order.t) : Order.t :=
  Order.mk (Order.id o) (Order.customer_name o) (Order.customer_phone o)
           (Order.order_date o) (Order.order_time o) (Order.items o) value
           (Order.payment_method o) (Order.created_at o).

(** [submitOrder] up to its [await]: the checks, [setLoading(true)] and the
    request. *)
Definition submitOrder_request (st : State) : State * list Effect :=
  match selectedDate st with
  | None => (st, [])
  | Some d =>
      if Qeq_bool (total st) 0 then (st, [])
      else if negb (validatePhone (OrderData.phone (orderData st))) then
        (setPhoneError phoneErrorMessage st, [])
      else
        (setLoading true st, [PostOrder (buildPayload d st)])
  end.

(** [submitOrder] from its [await] on, in the state that the other events
    have left meanwhile: the [try] block after [fetch], [catch] and
    [finally]. *)
Definition submitOrder_settled (reply : FetchOutcome) (st : State) : State * list Effect :=
  let '(st2, shown) :=
    match reply with
    | NetworkError => (st, [Alert (JStr connectionError)])
    | Response true _ => (setPage success st, [])
    | Response false None => (st, [Alert (JStr connectionError)])
    | Response false (Some err) =>
        match Json_error_field err with
        | None => (st, [Alert (JStr connectionError)])
        | Some (Some v) =>
            (st, [Alert (if Json_truthy v then v else JStr processingError)])
        | Some None => (st, [Alert (JStr processingError)])
        end
    end in
  (setLoading false st2, shown).

Inductive Event : Type :=
| PickDate (today date : Date.t)       (* a day of the calendar *)
| PickSlot (slot : string)             (* a slot button *)
| Proceed                              (* Continuar para Pedido *)
| Back                                 (* Voltar para a agenda *)
| TypeName (text : string)
| TypePhone (text : string)
| ChoosePayment (m : PaymentMethod)
| Tap (op : Cart.Op)                   (* + or - of a product row *)
| Submit                               (* the form is submitted *)
| Reply (reply : FetchOutcome)         (* the request of submitOrder settles *)
| SendWhatsApp
| ToggleAdmin                          (* the gear button of the header *)
| AvailabilityLoaded (a : Availability)              (* setAvailability(data) *)
| ProductsLoaded (ps : list Product.t)               (* setProducts(data) *)
| OpenEditor (o : Order.t)             (* setEditingOrder(order) *)
| CloseEditor                          (* setEditingOrder(null) *)
| EditPlus (pid : string)
| EditMinus (pid : string)
| EditText (field : OrderField) (value : string)     (* an input or select of the editor *)
| EditTotal (value : Q)                (* parseFloat(e.target.value) || 0 *)
| SaveOrder                            (* Salvar Alteracoes *)
| SaveSettled                          (* the request of the save button resolves *)
| ConfirmDelete (o : Order.t)          (* the bin of a row, confirmed *)
| Reload (ps : list Product.t) (dateParam timeParam : option string).

Section Platform.

Variable Date_parse : string -> option Date.t.
Variable Number_toFixed2 : Q -> string.

(** The state once the mount effect has run: the catalog is fetched, then
    the query string is read. *)
Definition mounted (ps : list Product.t) (dateParam timeParam : option string) : State :=
  fetchData Date_parse dateParam timeParam (setProducts ps initialState).

Definition step (st : State) (e : Event) : State * list Effect :=
  match e, page st with
  | PickDate today date, schedule => (datePickerClick today date st, [])
  | PickSlot slot, schedule =>
      if slotsShown st && Array_includes TIME_SLOTS slot
      then (setOrderData (OrderData.with_time slot) st, [])
      else (st, [])
  | Proceed, schedule => if proceedDisabled st then (st, []) else proceedToOrder st
  | Back, order => (setPage schedule st, [PushState "/"])
  | TypeName text, order => (setOrderData (with_name text) st, [])
  | TypePhone text, order => (handlePhoneChange text st, [])
  | ChoosePayment m, order => (setOrderData (with_paymentMethod m) st, [])
  | Tap op, order => (Cart.step st op, [])
  | Submit, order => if loading st then (st, []) else submitOrder_request st
  | Reply reply, _ => if loading st then submitOrder_settled reply st else (st, [])
  | SendWhatsApp, success => sendWhatsApp Number_toFixed2 st
  | ToggleAdmin, admin => (setPage schedule st, [])
  | ToggleAdmin, _ => (setPage admin st, [])
  | AvailabilityLoaded a, _ => (setAvailability a st, [])
  | ProductsLoaded ps, _ => (setProducts ps st, [])
  | OpenEditor o, admin => (setEditingOrder (Some o) st, [])
  | CloseEditor, admin => (setEditingOrder None st, [])
  | EditPlus pid, admin =>
      match editingOrder st with
      | Some _ => (Admin.incrementEditing pid st, [])
      | None => (st, [])
      end
  | EditMinus pid, admin =>
      match editingOrder st with
      | Some _ => (Admin.decrementEditing pid st, [])
      | None => (st, [])
      end
  | EditText f value, admin =>
      match editingOrder st with
      | Some o => (setEditingOrder (Some (with_field f value o)) st, [])
      | None => (st, [])
      end
  | EditTotal value, admin =>
      match editingOrder st with
      | Some o => (setEditingOrder (Some (with_total value o)) st, [])
      | None => (st, [])
      end
  | SaveOrder, admin =>
      match editingOrder st with
      | Some o => (st, [UpdateOrder o])
      | None => (st, [])
      end
  | SaveSettled, _ => (setEditingOrder None st, [])
  | ConfirmDelete o, admin => (st, [DeleteOrder (Order.id o)])
  | Reload ps dp tp, _ => (mounted ps dp tp, [])
  | _, _ => (st, [])
  end.

(** The state and the effects, oldest first, after a sequence of events. *)
Fixpoint run (st : State) (es : list Event) : State * list Effect :=
  match es with
  | [] => (st, [])
  | e :: es' =>
      let '(st1, out1) := step st e in
      let '(st2, out2) := run st1 es' in
      (st2, (out1 ++ out2)%list)
  end.

End Platform.

(** The request bodies and the alert messages among some effects. *)
Definition requests (out : list Effect) : list Payload.t :=
  flat_map (fun e => match e with PostOrder b => [b] | _ => [] end) out.

Definition alerts (out : list Effect) : list Json :=
  flat_map (fun e => match e with Alert m => [m] | _ => [] end) out.

(** The orders that the admin requests ask the order store to save. *)
Definition updates (out : list Effect) : list Order.t :=
  flat_map (fun e => match e with UpdateOrder o => [o] | _ => [] end) out.

(** The events whose product id, if they have one, is not the name of a
    member of [Object.prototype]: on these the handlers on dictionaries of
    numbers are those of the program. *)
Definition plainEvent (e : Event) : Prop :=
  match e with
  | Tap op => RawCart.plainOp op
  | EditPlus pid => RawCart.inherited pid = false
  | EditMinus pid => RawCart.inherited pid = false
  | _ => True
  end.

(** What holds of the state between any two events. *)
Record Invariant (st : State) : Prop := mkInvariant {
  inv_weekday : forall d, selectedDate st = Some d -> Date.isSunday d = false;
  inv_slot : OrderData.time (orderData st) = "" \/
             Array_includes TIME_SLOTS (OrderData.time (orderData st)) = true;
  inv_order : page st = order \/ page st = success \/ loading st = true ->
              selectedDate st <> None /\
              Array_includes TIME_SLOTS (OrderData.time (orderData st)) = true;
  inv_cart : Cart.positive (OrderData.selectedItems (orderData st));
  inv_phone : formatPhoneNumber (OrderData.phone (orderData st))
              = OrderData.phone (orderData st);
  inv_editor : Cart.positive (editingItems st)
}.

(** A request body as the order store should see it. *)
Definition wellFormedRequest (b : Payload.t) : Prop :=
  validatePhone (Payload.customer_phone b) = true /\
  Array_includes TIME_SLOTS (Payload.order_time b) = true /\
  (exists d, Payload.order_date b = Date.format_iso d /\ Date.isSunday d = false) /\
  Qeq_bool (Payload.total b) 0 = false.

End Workflow.

(** * Proofs *)

(** ** Facts about objects *)

Module JsObjectFacts.
Import JsObject.

Section Facts.
Context {V : Type}.
Implicit Types (o : t V) (k : string) (v : V).


Lemma get_remove_other o k k' : k <> k' -> get (remove o k) k' = get o k'.
Proof.
  intros Hne. induction o as [|[k0 v0] o IH]; simpl; auto.
  destruct (String.eqb k0 k) eqn:E.
  - apply String.eqb_eq in E. subst k0.
    destruct (String.eqb k k') eqn:E'; auto.
    apply String.eqb_eq in E'. contradiction.
  - simpl. now rewrite IH.
Qed.

Lemma remove_absent o k : get o k = None -> remove o k = o.
Proof.
  induction o as [|[k' v'] o IH]; simpl; auto.
  destruct (String.eqb k' k); [discriminate|].
  intros H. now rewrite IH.
Qed.

Lemma get_replace_same o k v : has o k = true -> get (replace o k v) k = Some v.
Proof.
  unfold has. induction o as [|[k' v'] o IH]; simpl; [discriminate|].
  destruct (String.eqb k' k) eqn:E; simpl.
  - now rewrite String.eqb_refl.
  - now rewrite E.
Qed.

Lemma get_replace_other o k k' v : k <> k' -> get (replace o k v) k' = get o k'.
Proof.
  intros Hne. induction o as [|[k0 v0] o IH]; simpl; auto.
  destruct (String.eqb k0 k) eqn:E; simpl.
  - apply String.eqb_eq in E. subst k0.
    destruct (String.eqb k k') eqn:E'; auto.
    apply String.eqb_eq in E'. contradiction.
  - now rewrite IH.
Qed.

Lemma get_insert_index_same o n k v :
  get o k = None -> get (insert_index o n k v) k = Some v.
Proof.
  induction o as [|[k' v'] o IH]; simpl.
  - now rewrite String.eqb_refl.
  - destruct (String.eqb k' k) eqn:E; [discriminate|]. intros H.
    destruct (array_index k') as [m|]; [destruct (n <? m)%N|]; simpl;
      rewrite ?String.eqb_refl, ?E; auto.
Qed.

Lemma get_insert_index_other o n k k' v :
  k <> k' -> get (insert_index o n k v) k' = get o k'.
Proof.
  intros Hne. apply String.eqb_neq in Hne.
  induction o as [|[k0 v0] o IH]; simpl.
  - now rewrite Hne.
  - destruct (array_index k0) as [m|]; [destruct (n <? m)%N|]; simpl;
      rewrite ?Hne, ?IH; auto.
Qed.

Lemma get_app_same o k v : get o k = None -> get (o ++ [(k, v)])%list k = Some v.
Proof.
  induction o as [|[k' v'] o IH]; simpl.
  - now rewrite String.eqb_refl.
  - destruct (String.eqb k' k); [discriminate | auto].
Qed.

Lemma get_app_other o k k' v : k <> k' -> get (o ++ [(k, v)])%list k' = get o k'.
Proof.
  intros Hne. apply String.eqb_neq in Hne.
  induction o as [|[k0 v0] o IH]; simpl.
  - now rewrite Hne.
  - now rewrite IH.
Qed.

Lemma get_set_same o k v : get (set o k v) k = Some v.
Proof.
  unfold set. destruct (has o k) eqn:H.
  - now apply get_replace_same.
  - assert (get o k = None) by (unfold has in H; destruct (get o k); congruence).
    destruct (array_index k).
    + now apply get_insert_index_same.
    + now apply get_app_same.
Qed.

Lemma get_set_other o k k' v : k <> k' -> get (set o k v) k' = get o k'.
Proof.
  intros Hne. unfold set. destruct (has o k).
  - now apply get_replace_other.
  - destruct (array_index k).
    + now apply get_insert_index_other.
    + now apply get_app_other.
Qed.

Lemma Forall_remove (P : string * V -> Prop) o k :
  Forall P o -> Forall P (remove o k).
Proof.
  induction 1 as [|[k' v'] o HP Ho IH]; simpl; auto.
  destruct (String.eqb k' k); auto.
Qed.

Lemma Forall_replace (P : string * V -> Prop) o k v :
  P (k, v) -> Forall P o -> Forall P (replace o k v).
Proof.
  intros Hk. induction 1 as [|[k' v'] o HP Ho IH]; simpl; auto.
  destruct (String.eqb k' k); auto.
Qed.

Lemma Forall_insert_index (P : string * V -> Prop) o n k v :
  P (k, v) -> Forall P o -> Forall P (insert_index o n k v).
Proof.
  intros Hk. induction 1 as [|[k' v'] o HP Ho IH]; simpl; auto.
  destruct (array_index k') as [m|]; [destruct (n <? m)%N|]; auto.
Qed.

Lemma Forall_set (P : string * V -> Prop) o k v :
  P (k, v) -> Forall P o -> Forall P (set o k v).
Proof.
  intros Hk Ho. unfold set. destruct (has o k).
  - now apply Forall_replace.
  - destruct (array_index k).
    + now apply Forall_insert_index.
    + apply Forall_app. auto.
Qed.

Lemma get_In o k v : get o k = Some v -> In (k, v) o.
Proof.
  induction o as [|[k' v'] o IH]; simpl; [discriminate|].
  destruct (String.eqb k' k) eqn:E.
  - apply String.eqb_eq in E. intros [= ->]. subst. auto.
  - auto.
Qed.

Lemma In_get o k v : NoDup (keys o) -> In (k, v) o -> get o k = Some v.
Proof.
  unfold keys. induction o as [|[k' v'] o IH]; simpl; [tauto|].
  intros Hnd [Heq | Hin].
  - injection Heq as -> ->. now rewrite String.eqb_refl.
  - inversion Hnd as [|? ? Hnotin Hnd']; subst.
    destruct (String.eqb k' k) eqn:E.
    + apply String.eqb_eq in E. subst k'.
      exfalso. apply Hnotin. change k with (fst (k, v)). now apply in_map.
    + auto.
Qed.

End Facts.

End JsObjectFacts.

(** ** The cart on dictionaries of numbers *)

Module CartProofs.
Import App Cart JsObjectFacts.

Lemma cartOf_updateItemQuantity id delta st :
  cartOf (updateItemQuantity id delta st) =
  OrderData.selectedItems (updateItemQuantity_prev id delta (orderData st)).
Proof. reflexivity. Qed.

Lemma positive_get c k q : positive c -> JsObject.get c k = Some q -> 0 < q.
Proof.
  intros Hp Hg. apply get_In in Hg.
  unfold positive, JsObject.entries in Hp. rewrite Forall_forall in Hp.
  exact (Hp _ Hg).
Qed.

Lemma positive_step st op : positive (cartOf st) -> positive (cartOf (step st op)).
Proof.
  intros Hp. destruct op as [id|id]; simpl; rewrite cartOf_updateItemQuantity;
    unfold updateItemQuantity_prev; simpl; fold (cartOf st);
    match goal with |- context [?n <=? 0] => destruct (Z.leb_spec n 0) end;
    unfold positive, JsObject.entries, JsObject.spread in *;
    try (now apply Forall_remove); now apply Forall_set.
Qed.



Lemma sumEntries_known ps es : (sumEntries ps es == sumEntries ps (known ps es))%Q.
Proof.
  induction es as [|[id qty] es IH]; simpl; [reflexivity|].
  unfold known in *. simpl.
  destruct (findById ps id) as [p|] eqn:E; simpl.
  - rewrite IH. reflexivity.
  - rewrite IH. unfold currentCatalogPrice. rewrite E. ring.
Qed.

End CartProofs.

(** ** Date selection: C3 *)

Module ScheduleProofs.
Import App.

Lemma handleDateSelect_sold_out d st :
  JsObject.get (availability st) (Date.format_iso d) = Some sold_out ->
  handleDateSelect (Some d) st = st.
Proof. unfold handleDateSelect. now intros ->. Qed.

Lemma handleDateSelect_open d st :
  JsObject.get (availability st) (Date.format_iso d) <> Some sold_out ->
  handleDateSelect (Some d) st = setSelectedDate (Some d) st.
Proof.
  unfold handleDateSelect. intros H.
  destruct (JsObject.get (availability st) (Date.format_iso d)) as [[]|]; congruence.
Qed.

(** [handleDateSelect] itself does not look at the day of the week: the
    Sunday rule lives in [filterDate]. *)
Remark handleDateSelect_ignores_weekday :
  Date.isSunday (Date.mk 2026 3 1) = true /\
  selectedDate (handleDateSelect (Some (Date.mk 2026 3 1)) initialState)
    = Some (Date.mk 2026 3 1).
Proof. split; reflexivity. Qed.

(** C3: picking a date in the calendar leaves the selected date as it was
    when the date is a Sunday, whatever the availability map holds, and
    when the map marks the date [sold_out]; any other date that is not
    before today becomes the selected date, also when the map has no
    entry for it, and nothing else of the state changes. *)
Theorem date_selection_rules (today date : Date.t) (st : State) :
  (Date.isSunday date = true -> datePickerClick today date st = st) /\
  (JsObject.get (availability st) (Date.format_iso date) = Some sold_out ->
   datePickerClick today date st = st) /\
  (Date.isSunday date = false ->
   JsObject.get (availability st) (Date.format_iso date) <> Some sold_out ->
   Date.day_before date today = false ->
   datePickerClick today date st = setSelectedDate (Some date) st /\
   selectedDate (datePickerClick today date st) = Some date).
Proof.
  unfold datePickerClick, filterDate. split; [|split].
  - intros ->. simpl. now destruct (Date.day_before date today).
  - intros Hsold. rewrite (handleDateSelect_sold_out _ _ Hsold).
    now destruct (Date.day_before date today), (negb (Date.isSunday date)).
  - intros Hday Hopen Hrange. rewrite Hday, Hrange. cbn [negb].
    rewrite (handleDateSelect_open _ _ Hopen). now split.
Qed.

Lemma date_selection_rules_witness :
  let today := Date.mk 2026 2 27 in
  let st := mkState schedule (Some (Date.mk 2026 2 28))
                    [("2026-03-01", available); ("2026-03-03", sold_out)]
                    false "" Example.catalog None JsObject.empty OrderData.initial in
  datePickerClick today (Date.mk 2026 3 1) st = st /\
  datePickerClick today (Date.mk 2026 3 3) st = st /\
  selectedDate (datePickerClick today (Date.mk 2026 3 4) st) = Some (Date.mk 2026 3 4).
Proof.
  intros today st. split; [|split].
  - exact (proj1 (date_selection_rules today (Date.mk 2026 3 1) st) eq_refl).
  - exact (proj1 (proj2 (date_selection_rules today (Date.mk 2026 3 3) st)) eq_refl).
  - apply (proj2 (proj2 (date_selection_rules today (Date.mk 2026 3 4) st)));
      [reflexivity | discriminate | reflexivity].
Defined.

End ScheduleProofs.

(** ** Submission: C5, C6 and C7 *)

Module SubmitProofs.
Import App.

Lemma submitOrder_no_date reply st :
  selectedDate st = None -> submitOrder reply st = (st, []).
Proof. unfold submitOrder. now intros ->. Qed.

Lemma submitOrder_zero_total reply st :
  Qeq_bool (total st) 0 = true -> submitOrder reply st = (st, []).
Proof. unfold submitOrder. intros ->. now destruct (selectedDate st). Qed.

Lemma submitOrder_bad_phone reply st :
  selectedDate st <> None -> Qeq_bool (total st) 0 = false ->
  validatePhone (OrderData.phone (orderData st)) = false ->
  submitOrder reply st = (setPhoneError phoneErrorMessage st, []).
Proof.
  unfold submitOrder. intros Hd -> ->.
  destruct (selectedDate st); [reflexivity | contradiction].
Qed.

Lemma submitOrder_sends reply st d :
  selectedDate st = Some d -> Qeq_bool (total st) 0 = false ->
  validatePhone (OrderData.phone (orderData st)) = true ->
  exists shown, snd (submitOrder reply st) = PostOrder (buildPayload d st) :: shown.
Proof.
  unfold submitOrder. intros -> -> ->. cbn [negb].
  destruct reply as [|[] [err|]]; try (eexists; reflexivity).
  destruct (Json_error_field err) as [[v|]|]; eexists; reflexivity.
Qed.

(** The day of the example is a Monday. *)
Remark example_day_is_monday : Date.getDay Example.monday = 1.
Proof. reflexivity. Qed.

(** The cart of the example is the one reached by tapping [+]. *)
Remark example_items_reached :
  Cart.cartOf (Cart.run [Cart.Increment "A"; Cart.Increment "A"; Cart.Increment "B"]
                        initialState) = Example.items.
Proof. reflexivity. Qed.

(** C5, as the code has it: for the draft and the catalog of the example
    the body posted by [submitOrder] has total 13 and an items summary of
    two lines, [2x A] then [1x B], with a space after the [x], in the
    order of insertion into the cart. *)
Theorem example_payload (reply : FetchOutcome) :
  exists shown,
    snd (submitOrder reply Example.state) =
    PostOrder (Payload.mk "Ana" "(770) 111-2222" "2026-03-02" "10:00"
                          (Example.lines ["2x A"; "1x B"]) 13 zelle) :: shown.
Proof.
  destruct (submitOrder_sends reply Example.state Example.monday)
    as [shown Hs]; try reflexivity.
  exists shown. exact Hs.
Qed.

(** The summary posted for the example is not the text [2xA], [1xB]. *)
Lemma summary_lines_have_a_space :
  snd (submitOrder (Response true None) Example.state) =
  [PostOrder (buildPayload Example.monday Example.state)] /\
  Payload.total (buildPayload Example.monday Example.state) = 13%Q /\
  Payload.items (buildPayload Example.monday Example.state)
    <> Example.lines ["2xA"; "1xB"].
Proof. split; [reflexivity|]. split; [reflexivity | discriminate]. Qed.

(** C6, as the code has it: when no date is selected, or the total is 0,
    or the phone fails [validatePhone], [submitOrder] emits no effect at
    all, so no request reaches the order store, and it leaves the page,
    the selected date and the draft as they were.  The phone error is set
    when the phone is malformed and the two earlier guards passed; when a
    guard before it fails the state is returned as it was. *)
Theorem submitOrder_aborts_locally (reply : FetchOutcome) (st : State) :
  selectedDate st = None \/ Qeq_bool (total st) 0 = true \/
  validatePhone (OrderData.phone (orderData st)) = false ->
  let st' := fst (submitOrder reply st) in
  snd (submitOrder reply st) = [] /\
  orderData st' = orderData st /\
  selectedDate st' = selectedDate st /\
  page st' = page st /\
  (selectedDate st = None \/ Qeq_bool (total st) 0 = true -> st' = st) /\
  (selectedDate st <> None -> Qeq_bool (total st) 0 = false ->
   phoneError st' = phoneErrorMessage).
Proof.
  intros H st'. subst st'.
  destruct (selectedDate st) as [d|] eqn:Hd.
  - destruct (Qeq_bool (total st) 0) eqn:Ht.
    + rewrite (submitOrder_zero_total reply st Ht). simpl.
      repeat split; auto. intros _ [=].
    + destruct H as [[=] | [[=] | Hp]].
      rewrite (submitOrder_bad_phone reply st); auto; [|congruence].
      simpl. repeat split; auto. intros [[=] | [=]].
  - rewrite (submitOrder_no_date reply st Hd). simpl.
    repeat split; auto. intros Hn. now elim Hn.
Qed.

Lemma submitOrder_aborts_locally_witness :
  let empty_cart := setOrderData (OrderData.with_selectedItems JsObject.empty) Example.state in
  let bad_phone := setOrderData (OrderData.with_phone "7701112222") Example.state in
  submitOrder NetworkError empty_cart = (empty_cart, []) /\
  snd (submitOrder NetworkError bad_phone) = [] /\
  phoneError (fst (submitOrder NetworkError bad_phone)) = phoneErrorMessage.
Proof.
  intros empty_cart bad_phone.
  pose proof (submitOrder_aborts_locally NetworkError empty_cart
                (or_intror (or_introl eq_refl))) as He.
  pose proof (submitOrder_aborts_locally NetworkError bad_phone
                (or_intror (or_intror eq_refl))) as Hb.
  cbv zeta in He, Hb.
  destruct He as (He1 & _ & _ & _ & He2 & _).
  destruct Hb as (Hb1 & _ & _ & _ & _ & Hb2).
  split; [|split].
  - rewrite (surjective_pairing (submitOrder NetworkError empty_cart)).
    rewrite He1, He2; [reflexivity | right; reflexivity].
  - exact Hb1.
  - apply Hb2; [discriminate | reflexivity].
Defined.

(** With an empty cart a malformed phone raises no phone error: the
    guard on the total returns first. *)
Lemma malformed_phone_with_empty_cart_sets_no_error :
  let st := setOrderData
              (fun d => OrderData.with_selectedItems JsObject.empty
                          (OrderData.with_phone "7701112222" d))
              Example.state in
  selectedDate st = Some Example.monday /\
  total st = 0%Q /\
  validatePhone (OrderData.phone (orderData st)) = false /\
  submitOrder NetworkError st = (st, []) /\
  phoneError (fst (submitOrder NetworkError st)) = "" /\
  phoneError (fst (submitOrder NetworkError st)) <> phoneErrorMessage.
Proof. repeat split; try reflexivity. discriminate. Qed.

(** C7: when the three guards pass and the order store answers with a
    failure status, the alert shows [Dia esgotado] for the body
    [{"error":"Dia esgotado"}] and the fixed text [connectionError] for a
    body that does not parse; either way exactly one request was sent, the
    page, the selected date and the draft are as before, and [loading] is
    back to false. *)
Theorem server_failure_is_reported (st : State) (d : Date.t) :
  selectedDate st = Some d ->
  Qeq_bool (total st) 0 = false ->
  validatePhone (OrderData.phone (orderData st)) = true ->
  submitOrder (Response false (Some Example.diaEsgotado)) st =
    (setLoading false st,
     [PostOrder (buildPayload d st); Alert (JStr "Dia esgotado")]) /\
  submitOrder (Response false None) st =
    (setLoading false st,
     [PostOrder (buildPayload d st); Alert (JStr connectionError)]) /\
  page (setLoading false st) = page st /\
  orderData (setLoading false st) = orderData st /\
  selectedDate (setLoading false st) = selectedDate st.
Proof.
  intros Hd Ht Hp. unfold submitOrder. rewrite Hd, Ht, Hp. cbn [negb].
  split; [reflexivity|]. split; [reflexivity|]. now destruct st.
Qed.

Lemma server_failure_is_reported_witness :
  page Example.state = order /\
  submitOrder (Response false (Some Example.diaEsgotado)) Example.state =
    (Example.state,
     [PostOrder (buildPayload Example.monday Example.state); Alert (JStr "Dia esgotado")]) /\
  submitOrder (Response false None) Example.state =
    (Example.state,
     [PostOrder (buildPayload Example.monday Example.state); Alert (JStr connectionError)]).
Proof.
  destruct (server_failure_is_reported Example.state Example.monday
              eq_refl eq_refl eq_refl) as (H1 & H2 & _).
  split; [reflexivity|]. split; [exact H1 | exact H2].
Defined.

End SubmitProofs.

(** ** Loading from a link: C9 *)

Module MountProofs.
Import JsString App Link.

#[local] Arguments Array_includes : simpl never.

Lemma slot_truthy t : Array_includes TIME_SLOTS t = true -> truthy t = true.
Proof. destruct t; [discriminate | reflexivity]. Qed.

Section Mount.

Variable Date_parse : string -> option Date.t.

(** The platform does not read a time of day alone as a date. *)
Hypothesis Date_parse_time_only : Date_parse "T12:00:00" = None.

(** C9: loaded on the scheduling step with a [data] parameter, the
    workflow is on the order step exactly when the date parses to a day
    that is not a Sunday and the [hora] parameter is one of [TIME_SLOTS],
    and then that date and that slot are the selected ones; when the slot
    is absent or not in [TIME_SLOTS] the workflow stays on the scheduling
    step with the draft as it was, the date being selected when it parses
    to a day that is not a Sunday. *)
Theorem link_preselects (dp : string) (tp : option string) (st : State) :
  page st = schedule ->
  let st' := fetchData Date_parse (Some dp) tp st in
  let parsed := Date_parse (dp ++ "T12:00:00") in
  (page st' = order <->
   (exists date, parsed = Some date /\ Date.isSunday date = false) /\ slotOk tp = true) /\
  (forall date t,
     parsed = Some date -> Date.isSunday date = false ->
     tp = Some t -> Array_includes TIME_SLOTS t = true ->
     page st' = order /\ selectedDate st' = Some date /\
     OrderData.time (orderData st') = t) /\
  (slotOk tp = false ->
   page st' = schedule /\ orderData st' = orderData st /\
   selectedDate st' =
     match parsed with
     | Some date => if Date.isSunday date then selectedDate st else Some date
     | None => selectedDate st
     end).
Proof.
  intros Hpage st' parsed. subst st' parsed. unfold fetchData.
  destruct dp as [|c dp'].
  - simpl. rewrite Date_parse_time_only. rewrite Hpage.
    split; [|split].
    + split; [discriminate | intros [[date [[=] _]] _]].
    + intros date t [=].
    + auto.
  - cbn [truthy]. set (src := (String c dp' ++ "T12:00:00")).
    destruct (Date_parse src) as [date|].
    2:{ rewrite Hpage. split; [|split].
        - split; [discriminate | intros [[date [[=] _]] _]].
        - intros date t [=].
        - auto. }
    destruct (Date.isSunday date) eqn:Hsun; cbn [negb].
    { rewrite Hpage. split; [|split].
      - split; [discriminate | intros [[date' [[= <-] Hn]] _]; congruence].
      - intros date' t [= <-] Hn. congruence.
      - auto. }
    destruct tp as [t|]; cbn [slotOk].
    2:{ cbn. rewrite Hpage. split; [|split].
        - split; [discriminate | intros [_ [=]]].
        - intros date' t' _ _ [=].
        - auto. }
    destruct (Array_includes TIME_SLOTS t) eqn:Hslot.
    + rewrite (slot_truthy t Hslot). cbn. split; [|split].
      * split; auto. intros _. split; auto. now exists date.
      * intros date' t' [= <-] _ [= <-] _. auto.
      * discriminate.
    + rewrite andb_false_r. cbn. rewrite Hpage. split; [|split].
      * split; [discriminate | intros [_ [=]]].
      * intros date' t' _ _ E Ht. congruence.
      * auto.
Qed.

End Mount.

Lemma link_preselects_witness :
  let st' := fetchData Example.parseOnly (Some "2026-03-02") (Some "10:00") initialState in
  page st' = order /\ selectedDate st' = Some Example.monday /\
  OrderData.time (orderData st') = "10:00".
Proof.
  exact (proj1 (proj2 (link_preselects Example.parseOnly eq_refl
                         "2026-03-02" (Some "10:00") initialState eq_refl))
               Example.monday "10:00" eq_refl eq_refl eq_refl eq_refl).
Defined.

End MountProofs.

(** ** Phone validation: C4 *)

Module PhoneProofs.
Import JsString App Phone.

Lemma digits_3 s :
  digits 3 s ->
  exists a b c, s = String a (String b (String c "")) /\
                is_digit a = true /\ is_digit b = true /\ is_digit c = true.
Proof.
  intros [Hlen Hd].
  destruct s as [|a [|b [|c [|? ?]]]]; try discriminate.
  simpl in Hd. repeat (apply andb_prop in Hd; destruct Hd as [? Hd]).
  exists a, b, c. auto.
Qed.

Lemma digits_4 s :
  digits 4 s ->
  exists a b c d, s = String a (String b (String c (String d ""))) /\
                  is_digit a = true /\ is_digit b = true /\
                  is_digit c = true /\ is_digit d = true.
Proof.
  intros [Hlen Hd].
  destruct s as [|a [|b [|c [|d [|? ?]]]]]; try discriminate.
  simpl in Hd. repeat (apply andb_prop in Hd; destruct Hd as [? Hd]).
  exists a, b, c, d. auto.
Qed.

(** One step of the matcher: read the first character [c] of the input
    and keep the test that it passed. *)
Ltac match_step H s c :=
  destruct s as [|c s]; cbn iota beta in H; [discriminate H|];
  match type of H with
  | context [if ?b then _ else _] =>
      match type of b with
      | bool => let E := fresh "E" in
                destruct b eqn:E; cbn iota beta in H; [|discriminate H]
      end
  end.

Lemma validatePhone_shape s : validatePhone s = true -> shape s.
Proof.
  unfold validatePhone, Regex.test, Regex.exec, phoneRegex. cbn [Regex.run Regex.times].
  intros H.
  match_step H s o. match_step H s a1. match_step H s a2. match_step H s a3.
  match_step H s p. match_step H s sp.
  match_step H s b1. match_step H s b2. match_step H s b3.
  match_step H s da.
  match_step H s c1. match_step H s c2. match_step H s c3. match_step H s c4.
  destruct s; [|discriminate H].
  repeat match goal with
         | E : Ascii.eqb _ _ = true |- _ => apply Ascii.eqb_eq in E; subst
         end.
  exists (String a1 (String a2 (String a3 ""))),
         (String b1 (String b2 (String b3 ""))),
         (String c1 (String c2 (String c3 (String c4 "")))).
  repeat split; simpl;
    repeat match goal with E : is_digit _ = true |- _ => rewrite E; clear E end;
    reflexivity.
Qed.

Lemma shape_validatePhone s : shape s -> validatePhone s = true.
Proof.
  intros (a & b & c & Ha & Hb & Hc & ->).
  apply digits_3 in Ha. destruct Ha as (a1 & a2 & a3 & -> & Ha1 & Ha2 & Ha3).
  apply digits_3 in Hb. destruct Hb as (b1 & b2 & b3 & -> & Hb1 & Hb2 & Hb3).
  apply digits_4 in Hc. destruct Hc as (c1 & c2 & c3 & c4 & -> & Hc1 & Hc2 & Hc3 & Hc4).
  unfold validatePhone, Regex.test, Regex.exec, phoneRegex. simpl.
  now rewrite Ha1, Ha2, Ha3, Hb1, Hb2, Hb3, Hc1, Hc2, Hc3, Hc4.
Qed.

(** C4: [validatePhone] accepts a string exactly when it is an opening
    parenthesis, three digits, a closing parenthesis, one space, three
    digits, a dash and four digits; so it rejects every string made of
    digits only and every string that is not fourteen characters long. *)
Theorem validatePhone_exact (s : string) :
  (validatePhone s = true <-> shape s) /\
  (forallb_string is_digit s = true -> validatePhone s = false) /\
  (String.length s <> 14%nat -> validatePhone s = false).
Proof.
  split; [split; [apply validatePhone_shape | apply shape_validatePhone]|].
  split.
  - intros Hd. destruct (validatePhone s) eqn:E; [|reflexivity].
    apply validatePhone_shape in E. destruct E as (a & b & c & _ & _ & _ & ->).
    simpl in Hd. discriminate.
  - intros Hlen. destruct (validatePhone s) eqn:E; [|reflexivity].
    apply validatePhone_shape in E.
    destruct E as (a & b & c & Ha & Hb & Hc & ->).
    apply digits_3 in Ha. destruct Ha as (a1 & a2 & a3 & -> & _).
    apply digits_3 in Hb. destruct Hb as (b1 & b2 & b3 & -> & _).
    apply digits_4 in Hc. destruct Hc as (c1 & c2 & c3 & c4 & -> & _).
    now elim Hlen.
Qed.

Lemma validatePhone_exact_witness :
  validatePhone "(770) 111-2222" = true /\
  validatePhone "7701112222" = false /\
  validatePhone "(770) 11" = false.
Proof.
  split; [|split].
  - apply (proj1 (validatePhone_exact "(770) 111-2222")).
    exists "770", "111", "2222". repeat split.
  - apply (proj1 (proj2 (validatePhone_exact "7701112222"))). reflexivity.
  - apply (proj2 (proj2 (validatePhone_exact "(770) 11"))). discriminate.
Defined.

End PhoneProofs.

(** ** Facts about strings and numerals *)

Module JsStringFacts.
Import JsString.

Lemma append_nil_r s : s ++ "" = s.
Proof. induction s; simpl; congruence. Qed.

Lemma append_assoc s1 s2 s3 : (s1 ++ s2) ++ s3 = s1 ++ (s2 ++ s3).
Proof. induction s1; simpl; congruence. Qed.

Lemma length_append s1 s2 :
  String.length (s1 ++ s2) = (String.length s1 + String.length s2)%nat.
Proof. induction s1; simpl; congruence. Qed.

Lemma take_append s r : take (String.length s) (s ++ r) = s.
Proof. induction s; simpl; [now destruct r | congruence]. Qed.

Lemma take_prefix s r :
  take (String.length (s ++ r) - String.length r) (s ++ r) = s.
Proof.
  rewrite length_append.
  replace (String.length s + String.length r - String.length r)%nat
    with (String.length s) by lia.
  apply take_append.
Qed.

Lemma forallb_string_append p s1 s2 :
  forallb_string p (s1 ++ s2) = forallb_string p s1 && forallb_string p s2.
Proof. induction s1; simpl; [reflexivity | now rewrite IHs1, andb_assoc]. Qed.

Lemma length_rev_string s acc :
  String.length (rev_string s acc) = (String.length s + String.length acc)%nat.
Proof.
  revert acc. induction s; intros acc; simpl; [reflexivity|].
  rewrite IHs. simpl. lia.
Qed.

Lemma length_drop_while p s : (String.length (drop_while p s) <= String.length s)%nat.
Proof. induction s; simpl; [lia|]. destruct (p a); simpl; lia. Qed.

Lemma length_trim s :
  (String.length (trim s) <= String.length (drop_while is_space s))%nat.
Proof.
  unfold trim. rewrite length_rev_string. simpl.
  pose proof (length_drop_while is_space (rev_string (drop_while is_space s) "")) as H.
  rewrite length_rev_string in H. simpl in H. lia.
Qed.

(** A string that [trim] leaves alone does not begin with white space. *)
Lemma trim_fixed_head c s : trim (String c s) = String c s -> is_space c = false.
Proof.
  intros H. destruct (is_space c) eqn:E; [|reflexivity].
  pose proof (length_trim (String c s)) as Hl. rewrite H in Hl.
  simpl in Hl. rewrite E in Hl.
  pose proof (length_drop_while is_space s). lia.
Qed.

Lemma string_of_uint_digits d :
  forallb_string is_digit (NilEmpty.string_of_uint d) = true.
Proof. induction d; simpl; auto. Qed.

Lemma digits_value_acc d acc :
  digits_value (NilEmpty.string_of_uint d) (Npos acc) = Npos (Pos.of_uint_acc d acc).
Proof.
  revert acc.
  induction d; intros acc;
    cbn [NilEmpty.string_of_uint digits_value Pos.of_uint_acc];
    [reflexivity | ..];
    rewrite <- IHd; f_equal;
    match goal with
    | |- context [(code ?c - 48)%N] =>
        let v := eval vm_compute in (code c - 48)%N in
        change (code c - 48)%N with v
    end; lia.
Qed.

Lemma digits_value_of_uint d :
  digits_value (NilEmpty.string_of_uint d) 0 = Pos.of_uint d.
Proof.
  induction d; cbn [NilEmpty.string_of_uint digits_value Pos.of_uint];
    [reflexivity | exact IHd | ..]; apply digits_value_acc.
Qed.

Section Positive.
Variable q : Z.
Hypothesis q_pos : 0 < q.

Lemma Number_toString_pos :
  exists d, d <> Decimal.Nil /\
            Number_toString q = NilEmpty.string_of_uint d /\
            Pos.of_uint d = Z.to_N q.
Proof.
  destruct q as [|p|p]; try lia.
  exists (Pos.to_uint p). split; [apply DecimalPos.Unsigned.to_uint_nonnil|].
  split.
  - unfold Number_toString. simpl.
    pose proof (DecimalPos.Unsigned.to_uint_nonnil p).
    now destruct (Pos.to_uint p).
  - apply DecimalPos.Unsigned.of_to.
Qed.

Lemma Number_toString_digits : forallb_string is_digit (Number_toString q) = true.
Proof.
  destruct Number_toString_pos as (d & _ & -> & _). apply string_of_uint_digits.
Qed.

Lemma Number_toString_nonempty : Number_toString q <> "".
Proof.
  destruct Number_toString_pos as (d & Hd & -> & _). now destruct d.
Qed.

Lemma parseInt_Number_toString : parseInt (Number_toString q) = q.
Proof.
  destruct Number_toString_pos as (d & _ & -> & Hv).
  unfold parseInt. rewrite digits_value_of_uint, Hv. lia.
Qed.

End Positive.

End JsStringFacts.

(** ** The items text read back: C8 *)

Module RoundTripProofs.
Import JsString JsStringFacts App RoundTrip JsObjectFacts.

(** *** The matcher on a greedy repetition *)

Lemma plus_run_stops p r k : stopsAt p r -> Regex.plus_run p r k = None.
Proof. destruct r as [|c r]; simpl; [reflexivity | now intros ->]. Qed.

Lemma plus_run_greedy p d r k res :
  d <> "" -> forallb_string p d = true -> stopsAt p r ->
  k r = Some res ->
  Regex.plus_run p (d ++ r) k = Some res.
Proof.
  intros Hne Hall Hstop Hk. induction d as [|c d IH]; [congruence|].
  simpl in Hall. apply andb_prop in Hall. destruct Hall as [Hc Hd].
  simpl. rewrite Hc. destruct d as [|c' d'].
  - simpl. now rewrite (plus_run_stops p r k Hstop).
  - rewrite IH; [reflexivity | discriminate | exact Hd].
Qed.

Lemma forallb_string_impl (p q : ascii -> bool) s :
  (forall c, p c = true -> q c = true) ->
  forallb_string p s = true -> forallb_string q s = true.
Proof.
  intros Hpq. induction s as [|c s IH]; simpl; [reflexivity|].
  intros H. apply andb_prop in H. destruct H as [Hc Hs].
  now rewrite (Hpq c Hc), IH.
Qed.

Lemma plus_run_one p c r k :
  p c = true -> stopsAt p r -> Regex.plus_run p (String c r) k = k r.
Proof. intros Hc Hr. simpl. now rewrite Hc, (plus_run_stops p r k Hr). Qed.

Lemma plus_run_all p d k res :
  d <> "" -> forallb_string p d = true -> k "" = Some res ->
  Regex.plus_run p d k = Some res.
Proof.
  intros Hne Hall Hk. rewrite <- (append_nil_r d).
  now apply plus_run_greedy.
Qed.

Lemma take_all s : take (String.length s) s = s.
Proof. induction s; simpl; congruence. Qed.

Lemma run_Seq r1 r2 s caps k :
  Regex.run (Regex.Seq r1 r2) s caps k =
  Regex.run r1 s caps (fun s' caps' => Regex.run r2 s' caps' k).
Proof. reflexivity. Qed.

Lemma run_Chr c s caps k : Regex.run (Regex.Chr c) (String c s) caps k = k s caps.
Proof. simpl. now rewrite Ascii.eqb_refl. Qed.

Lemma run_Group_Plus p s caps k :
  Regex.run (Regex.Group (Regex.Plus p)) s caps k =
  Regex.plus_run p s
    (fun s' => k s' (caps ++ [take (String.length s - String.length s') s])%list).
Proof. reflexivity. Qed.

Lemma run_Plus p s caps k :
  Regex.run (Regex.Plus p) s caps k = Regex.plus_run p s (fun s' => k s' caps).
Proof. reflexivity. Qed.

(** The pattern of an item line on a line made of a numeral, [x], one
    space and a plain name: the two groups are the numeral and the name. *)
Lemma exec_item_line d n :
  d <> "" -> forallb_string is_digit d = true -> plainName n = true ->
  Regex.exec itemRegex (d ++ "x " ++ n) = Some [d; n].
Proof.
  intros Hd Hdig Hn. unfold plainName in Hn.
  repeat (apply andb_prop in Hn; destruct Hn as [Hn ?]).
  destruct n as [|c n]; [discriminate|].
  assert (Hc : is_space c = false).
  { apply (trim_fixed_head c n). now apply String.eqb_eq. }
  unfold Regex.exec, itemRegex.
  rewrite run_Seq, run_Group_Plus.
  apply plus_run_greedy; auto; [reflexivity|]. cbv beta.
  rewrite take_prefix.
  change ("x " ++ String c n) with (String "x" (String " " (String c n))).
  rewrite run_Seq, run_Chr, run_Seq, run_Plus.
  rewrite plus_run_one; [|reflexivity | exact Hc].
  rewrite run_Group_Plus.
  apply plus_run_all; auto; [discriminate|].
  simpl (String.length ""). rewrite Nat.sub_0_r, take_all. reflexivity.
Qed.

(** *** Splitting the summary *)

Lemma LF_not_space : Ascii.eqb LF " " = false.
Proof. reflexivity. Qed.

Lemma split_from_piece l r cur :
  separatorFree l = true ->
  split_from (l ++ String LF r) cur = (cur ++ l) :: split_from r "" /\
  split_from l cur = [cur ++ l].
Proof.
  revert cur. induction l as [|c l IH]; intros cur Hl.
  - simpl. now rewrite append_nil_r.
  - unfold separatorFree in Hl. apply andb_prop in Hl. destruct Hl as [Hlf Hsep].
    simpl in Hlf. apply andb_prop in Hlf. destruct Hlf as [Hc Hlf].
    apply negb_true_iff in Hc. apply negb_true_iff in Hsep.
    assert (Hl' : separatorFree l = true).
    { unfold separatorFree. rewrite Hlf. simpl in Hsep.
      apply orb_false_elim in Hsep. destruct Hsep as [_ Hsep].
      simpl. now rewrite Hsep. }
    assert (Hhead : forall c' s, l = String c' s ->
                                 Ascii.eqb c "," && Ascii.eqb c' " " = false).
    { intros c' s ->. simpl in Hsep. apply orb_false_elim in Hsep.
      destruct Hsep as [Hsep _]. rewrite andb_true_r in Hsep.
      now rewrite (Ascii.eqb_sym c), (Ascii.eqb_sym c'). }
    specialize (IH (cur ++ String c "") Hl').
    rewrite append_assoc in IH. simpl in IH. destruct IH as [IH1 IH2].
    split.
    + destruct l as [|c' l']; cbn [split_from append] in *; rewrite Hc.
      * rewrite LF_not_space, andb_false_r. exact IH1.
      * rewrite (Hhead c' l' eq_refl). exact IH1.
    + destruct l as [|c' l']; cbn [split_from] in *; rewrite Hc.
      * exact IH2.
      * rewrite (Hhead c' l' eq_refl). exact IH2.
Qed.

Lemma split_items_join ls :
  ls <> [] -> Forall (fun l => separatorFree l = true) ls ->
  split_items (join (String LF "") ls) = ls.
Proof.
  intros Hne Hall. unfold split_items.
  induction Hall as [|l ls Hl Hls IH]; [congruence|].
  destruct ls as [|l' ls'].
  - simpl. now rewrite (proj2 (split_from_piece l "" "" Hl)).
  - change (join (String LF "") (l :: l' :: ls'))
      with (l ++ String LF (join (String LF "") (l' :: ls'))).
    rewrite (proj1 (split_from_piece l _ "" Hl)). simpl ("" ++ l).
    f_equal. apply IH. discriminate.
Qed.

(** *** One line of the summary *)

Lemma includes_comma_skip d s :
  forallb_string (fun c => negb (Ascii.eqb c ",")) d = true ->
  includes ", " (d ++ s) = includes ", " s.
Proof.
  induction d as [|c d IH]; [reflexivity|].
  cbn [forallb_string]. intros H. apply andb_prop in H. destruct H as [Hc Hd].
  apply negb_true_iff in Hc.
  change (String c d ++ s) with (String c (d ++ s)).
  cbn [includes starts_with]. rewrite (Ascii.eqb_sym "," c), Hc. simpl.
  now apply IH.
Qed.

Lemma is_digit_plain c :
  is_digit c = true ->
  negb (Ascii.eqb c LF) = true /\ negb (Ascii.eqb c ",") = true.
Proof.
  intros H. split; apply negb_true_iff; apply Ascii.eqb_neq; intros ->; discriminate.
Qed.

Lemma is_dot_not_LF c : is_dot c = true -> negb (Ascii.eqb c LF) = true.
Proof.
  intros H. apply negb_true_iff, Ascii.eqb_neq. intros ->. discriminate.
Qed.

Lemma line_separatorFree d n :
  forallb_string is_digit d = true -> plainName n = true ->
  separatorFree (d ++ "x " ++ n) = true.
Proof.
  intros Hd Hn. unfold plainName in Hn.
  repeat (apply andb_prop in Hn; destruct Hn as [Hn ?]).
  unfold separatorFree. apply andb_true_intro. split.
  - rewrite !forallb_string_append.
    apply andb_true_intro. split; [|apply andb_true_intro; split].
    + revert Hd. apply forallb_string_impl. intros c Hc. now apply is_digit_plain.
    + reflexivity.
    + match goal with H : forallb_string is_dot n = true |- _ => revert H end.
      apply forallb_string_impl. exact is_dot_not_LF.
  - rewrite <- append_assoc, includes_comma_skip; [assumption|].
    rewrite forallb_string_append. apply andb_true_intro. split; [|reflexivity].
    revert Hd. apply forallb_string_impl. intros c Hc. now apply is_digit_plain.
Qed.

Section Catalog.

Variable ps : list Product.t.

Lemma itemLine_shape e :
  readable ps e ->
  exists d n,
    itemLine ps e = d ++ "x " ++ n /\
    d <> "" /\ forallb_string is_digit d = true /\ parseInt d = snd e /\
    plainName n = true /\
    exists p, findByName ps n = Some p /\ Product.id p = fst e.
Proof.
  destruct e as [id q]. intros [Hq Hr]. simpl in Hq, Hr.
  unfold resolves in Hr. unfold itemLine.
  destruct (findById ps id) as [p|]; [|discriminate].
  apply andb_prop in Hr. destruct Hr as [Hplain Hback].
  destruct (findByName ps (Product.name p)) as [p'|] eqn:Hfind; [|discriminate].
  exists (Number_toString q), (Product.name p). split; [reflexivity|].
  split; [now apply Number_toString_nonempty|].
  split; [now apply Number_toString_digits|].
  split; [now apply parseInt_Number_toString|].
  split; [exact Hplain|].
  exists p'. split; [exact Hfind | now apply String.eqb_eq].
Qed.

Lemma itemLine_separatorFree e : readable ps e -> separatorFree (itemLine ps e) = true.
Proof.
  intros He. destruct (itemLine_shape e He) as (d & n & -> & _ & Hd & _ & Hn & _).
  now apply line_separatorFree.
Qed.

Lemma itemLine_truthy e : readable ps e -> truthy (itemLine ps e) = true.
Proof.
  intros He. destruct (itemLine_shape e He) as (d & n & -> & Hd & _).
  now destruct d.
Qed.

Lemma parsePart_itemLine m e :
  readable ps e ->
  parsePart ps m (itemLine ps e) = JsObject.set m (fst e) (snd e).
Proof.
  intros He.
  destruct (itemLine_shape e He)
    as (d & n & -> & Hd & Hdig & Hval & Hn & p & Hfind & Hid).
  unfold parsePart. rewrite (exec_item_line d n Hd Hdig Hn).
  assert (Htrim : trim n = n).
  { unfold plainName in Hn. apply andb_prop in Hn. destruct Hn as [_ Hn].
    now apply String.eqb_eq. }
  now rewrite Htrim, Hfind, Hval, Hid.
Qed.

Lemma fold_parsePart es m :
  Forall (readable ps) es ->
  fold_left (parsePart ps) (map (itemLine ps) es) m =
  fold_left (fun acc e => JsObject.set acc (fst e) (snd e)) es m.
Proof.
  intros Hes. revert m. induction Hes as [|e es He Hes IH]; intros m; simpl.
  - reflexivity.
  - now rewrite (parsePart_itemLine m e He), IH.
Qed.

Lemma filter_truthy_lines es :
  Forall (readable ps) es ->
  filter truthy (map (itemLine ps) es) = map (itemLine ps) es.
Proof.
  induction 1 as [|e es He Hes IH]; simpl; [reflexivity|].
  now rewrite (itemLine_truthy e He), IH.
Qed.

Lemma parseItems_itemsSummary (c : JsObject.t Z) :
  Forall (readable ps) (JsObject.entries c) ->
  parseItems ps (itemsSummary c ps) =
  fold_left (fun acc e => JsObject.set acc (fst e) (snd e)) (JsObject.entries c)
            JsObject.empty.
Proof.
  intros Hes. unfold parseItems, itemsSummary.
  destruct (JsObject.entries c) as [|e es] eqn:Hc; [reflexivity|].
  rewrite split_items_join.
  - rewrite filter_truthy_lines by exact Hes. now apply fold_parsePart.
  - discriminate.
  - rewrite Forall_map. revert Hes. apply Forall_impl.
    exact itemLine_separatorFree.
Qed.

End Catalog.

Lemma get_fold_set (es : list (string * Z)) (m : JsObject.t Z) (k : string) :
  NoDup (map fst es) ->
  JsObject.get (fold_left (fun acc e => JsObject.set acc (fst e) (snd e)) es m) k =
  match JsObject.get es k with
  | Some v => Some v
  | None => JsObject.get m k
  end.
Proof.
  revert m. induction es as [|[k' v'] es IH]; intros m Hnd; simpl; [reflexivity|].
  inversion Hnd as [|? ? Hnotin Hnd']; subst.
  rewrite (IH _ Hnd'). cbn [fst snd].
  destruct (String.eqb k' k) eqn:E.
  - apply String.eqb_eq in E. subst k'.
    destruct (JsObject.get es k) as [v|] eqn:Hg.
    + exfalso. apply Hnotin. apply get_In in Hg.
      change k with (fst (k, v)). now apply in_map.
    + apply get_set_same.
  - destruct (JsObject.get es k); [reflexivity|].
    apply get_set_other. now apply String.eqb_neq.
Qed.

(** The confirmation message carries the itemized lines between its
    header and its footer. *)
Remark message_carries_lines (Number_toFixed2 : Q -> string) st :
  whatsAppMessage Number_toFixed2 st
  = messageHeader st ++ itemizedLines st ++ messageFooter Number_toFixed2 st.
Proof. reflexivity. Qed.

(** C8, as the code has it: when the cart has positive quantities and
    every key names a catalog product whose name is plain and leads back
    to that key, reading the itemized lines of the confirmation message
    the way [startEditingOrder] reads an items text gives, for every
    product id, the quantity that the cart holds. *)
Theorem items_text_round_trip (st : State) :
  cartSelection (Cart.cartOf st) ->
  (forall id, In id (JsObject.keys (Cart.cartOf st)) -> resolves (products st) id = true) ->
  forall id,
    JsObject.get (parseItems (products st) (itemizedLines st)) id =
    JsObject.get (Cart.cartOf st) id.
Proof.
  intros [Hnd Hpos] Hres id. unfold itemizedLines. fold (Cart.cartOf st).
  assert (Hes : Forall (readable (products st)) (JsObject.entries (Cart.cartOf st))).
  { unfold Cart.positive in Hpos. rewrite Forall_forall in *.
    intros e He. split; [now apply Hpos|].
    apply Hres. unfold JsObject.keys. now apply in_map. }
  rewrite (parseItems_itemsSummary (products st) (Cart.cartOf st) Hes).
  rewrite get_fold_set by exact Hnd.
  unfold JsObject.entries. now destruct (JsObject.get (Cart.cartOf st) id).
Qed.

Lemma items_text_round_trip_witness :
  itemizedLines Example.state = Example.lines ["2x A"; "1x B"] /\
  JsObject.get (parseItems Example.catalog (itemizedLines Example.state)) "A" = Some 2 /\
  JsObject.get (parseItems Example.catalog (itemizedLines Example.state)) "B" = Some 1.
Proof.
  assert (Hc : cartSelection (Cart.cartOf Example.state)).
  { split.
    - repeat constructor; simpl; intuition discriminate.
    - repeat constructor. }
  assert (Hr : forall id, In id (JsObject.keys (Cart.cartOf Example.state)) ->
                          resolves (products Example.state) id = true).
  { intros id [<- | [<- | []]]; reflexivity. }
  split; [reflexivity|]. split.
  - exact (items_text_round_trip Example.state Hc Hr "A").
  - exact (items_text_round_trip Example.state Hc Hr "B").
Defined.

(** A product name holding [", "] is cut in two by [split], and the
    quantity of that product is lost. *)
Lemma comma_in_name_breaks_round_trip :
  cartSelection (Cart.cartOf commaState) /\
  (forall id, In id (JsObject.keys (Cart.cartOf commaState)) ->
              findById (products commaState) id <> None) /\
  JsObject.get (Cart.cartOf commaState) "1" = Some 2 /\
  itemizedLines commaState = "2x Bolo, grande" /\
  split_items (itemizedLines commaState) = ["2x Bolo"; "grande"] /\
  JsObject.get (parseItems (products commaState) (itemizedLines commaState)) "1" = None.
Proof.
  split.
  { split; [repeat constructor; simpl; tauto | repeat constructor]. }
  split.
  { intros id [<- | []]. discriminate. }
  repeat split.
Qed.

(** Each condition on a name is needed: the unit is read back for a
    plain name and lost for a name that is empty, begins or ends with a
    space, or holds a line feed or a carriage return. *)
Remark plain_name_conditions_needed :
  readBack "Bolo de milho" = [("1", 2)] /\
  readBack "" = [] /\
  readBack " Bolo" = [] /\
  readBack "Bolo " = [] /\
  readBack ("Bolo" ++ String LF "grande") = [] /\
  readBack ("Bolo" ++ String "013" "grande") = [].
Proof. repeat split. Qed.

(** When two products share a name the quantity goes to the first one. *)
Remark shared_name_breaks_round_trip :
  itemsSummary twinCart twinCatalog = "3x Broa" /\
  parseItems twinCatalog (itemsSummary twinCart twinCatalog) = [("1", 3)].
Proof. split; reflexivity. Qed.

End RoundTripProofs.

(** ** The phone field *)

Module ContactProofs.
Import JsString JsStringFacts App Contact.

#[local] Arguments is_digit : simpl never.

Lemma filter_string_all p s : forallb_string p (filter_string p s) = true.
Proof.
  induction s as [|c s IH]; simpl; [reflexivity|].
  destruct (p c) eqn:E; simpl; [now rewrite E|assumption].
Qed.

Lemma filter_string_id p s : forallb_string p s = true -> filter_string p s = s.
Proof.
  induction s as [|c s IH]; simpl; [reflexivity|].
  intros H. apply andb_prop in H. destruct H as [Hc Hs].
  now rewrite Hc, IH.
Qed.

Lemma filter_string_idem p s : filter_string p (filter_string p s) = filter_string p s.
Proof. apply filter_string_id, filter_string_all. Qed.

Lemma digit_not_paren c : is_digit c = true -> Ascii.eqb c "(" = false.
Proof. intros H. apply Ascii.eqb_neq. intros ->. discriminate. Qed.

Lemma formatPhoneNumber_digits v :
  formatPhoneNumber v = formatPhoneNumber (digitsOf v).
Proof.
  unfold formatPhoneNumber, digitsOf.
  rewrite filter_string_idem.
  destruct v as [|c v]; [reflexivity|].
  cbn [truthy negb].
  destruct (filter_string is_digit (String c v)) as [|d ds]; reflexivity.
Qed.

(** The cases of a string of digits by its length, up to ten and beyond. *)
Ltac digit_cases pn H :=
  let rec go n pn :=
    lazymatch n with
    | O => idtac
    | S ?n' =>
        let c := fresh "c" in
        destruct pn as [|c pn];
        [| let Hc := fresh "Hc" in
           cbn [forallb_string] in H; apply andb_prop in H; destruct H as [Hc H];
           go n' pn ]
    end in
  go 11%nat pn.

Ltac use_digits :=
  repeat match goal with
         | E : is_digit ?c = true |- context [is_digit ?c] => rewrite E
         | E : is_digit ?c = true |- context [Ascii.eqb ?c "("] =>
             rewrite (digit_not_paren c E)
         end.

Lemma is_digit_separators :
  is_digit "(" = false /\ is_digit ")" = false /\
  is_digit " " = false /\ is_digit "-" = false.
Proof. repeat split. Qed.

Lemma digitsOf_format_digits pn :
  forallb_string is_digit pn = true ->
  digitsOf (formatPhoneNumber pn) = take 10 pn.
Proof.
  intros H. destruct is_digit_separators as (Ho & Hc & Hs & Hd).
  digit_cases pn H;
    unfold formatPhoneNumber, digitsOf, slice;
    cbn [truthy negb filter_string]; use_digits;
    cbn [String.length Nat.ltb Nat.leb Nat.sub take drop append filter_string];
    rewrite ?Ho, ?Hc, ?Hs, ?Hd; use_digits;
    cbn [filter_string]; rewrite ?Ho, ?Hc, ?Hs, ?Hd; use_digits;
    repeat (cbn [filter_string]; rewrite ?Ho, ?Hc, ?Hs, ?Hd; use_digits);
    reflexivity.
Qed.

Lemma format_take_digits pn :
  forallb_string is_digit pn = true ->
  formatPhoneNumber (take 10 pn) = formatPhoneNumber pn.
Proof.
  intros H.
  digit_cases pn H;
    unfold formatPhoneNumber, slice;
    cbn [take truthy negb filter_string]; use_digits;
    cbn [String.length Nat.ltb Nat.leb Nat.sub take drop append filter_string];
    reflexivity.
Qed.

Lemma validate_format_digits pn :
  forallb_string is_digit pn = true ->
  validatePhone (formatPhoneNumber pn) = Nat.leb 10 (String.length pn).
Proof.
  intros H.
  digit_cases pn H;
    unfold formatPhoneNumber, slice;
    cbn [truthy negb filter_string]; use_digits;
    cbn [String.length Nat.ltb Nat.leb Nat.sub take drop append];
    unfold validatePhone, Regex.test, Regex.exec, phoneRegex;
    cbn [Regex.run Regex.times Ascii.eqb Bool.eqb]; use_digits;
    try reflexivity.
Qed.

(** X1: formatting a phone text twice is the same as formatting it once,
    for every text. *)
Theorem formatPhoneNumber_idempotent (v : string) :
  formatPhoneNumber (formatPhoneNumber v) = formatPhoneNumber v.
Proof.
  rewrite (formatPhoneNumber_digits (formatPhoneNumber v)).
  rewrite (formatPhoneNumber_digits v) at 1.
  rewrite digitsOf_format_digits by apply filter_string_all.
  rewrite format_take_digits by apply filter_string_all.
  symmetry. apply formatPhoneNumber_digits.
Qed.

(** X2: the formatted text depends on the digits of the input only, and
    its own digits are the first ten digits of the input, in order. *)
Theorem formatPhoneNumber_keeps_ten_digits (v : string) :
  formatPhoneNumber v = formatPhoneNumber (digitsOf v) /\
  digitsOf (formatPhoneNumber v) = take 10 (digitsOf v).
Proof.
  split; [apply formatPhoneNumber_digits|].
  rewrite (formatPhoneNumber_digits v).
  rewrite digitsOf_format_digits by apply filter_string_all.
  reflexivity.
Qed.

(** X3: the formatted text passes [validatePhone] exactly when the input
    holds at least ten digits. *)
Theorem formatted_phone_valid_iff_ten_digits (v : string) :
  validatePhone (formatPhoneNumber v) = true <->
  (10 <= String.length (digitsOf v))%nat.
Proof.
  rewrite (formatPhoneNumber_digits v).
  rewrite validate_format_digits by apply filter_string_all.
  apply Nat.leb_le.
Qed.

End ContactProofs.

(** ** More on the cart and on the total *)

Module CartMoreProofs.
Import App Cart JsObjectFacts CartProofs.

Section Objects.
Context {V : Type}.
Implicit Types (o : JsObject.t V) (k : string) (v : V).

Lemma remove_replace o k v : JsObject.remove (JsObject.replace o k v) k = JsObject.remove o k.
Proof.
  induction o as [|[k' v'] o IH]; simpl; [reflexivity|].
  destruct (String.eqb k' k) eqn:E; simpl.
  - now rewrite String.eqb_refl.
  - now rewrite E, IH.
Qed.

Lemma remove_insert_index o n k v :
  JsObject.remove (JsObject.insert_index o n k v) k = JsObject.remove o k.
Proof.
  induction o as [|[k' v'] o IH]; simpl.
  - now rewrite String.eqb_refl.
  - destruct (JsObject.array_index k') as [m|]; [destruct (n <? m)%N|]; simpl;
      rewrite ?String.eqb_refl, ?IH; reflexivity.
Qed.

Lemma remove_app o k v : JsObject.remove (o ++ [(k, v)])%list k = JsObject.remove o k.
Proof.
  induction o as [|[k' v'] o IH]; simpl.
  - now rewrite String.eqb_refl.
  - now rewrite IH.
Qed.

Lemma remove_set o k v : JsObject.remove (JsObject.set o k v) k = JsObject.remove o k.
Proof.
  unfold JsObject.set. destruct (JsObject.has o k).
  - apply remove_replace.
  - destruct (JsObject.array_index k).
    + apply remove_insert_index.
    + apply remove_app.
Qed.

Lemma replace_replace o k v w :
  JsObject.replace (JsObject.replace o k v) k w = JsObject.replace o k w.
Proof.
  induction o as [|[k' v'] o IH]; simpl; [reflexivity|].
  destruct (String.eqb k' k) eqn:E; simpl.
  - now rewrite String.eqb_refl.
  - now rewrite E, IH.
Qed.

Lemma replace_same o k v : JsObject.get o k = Some v -> JsObject.replace o k v = o.
Proof.
  induction o as [|[k' v'] o IH]; simpl; [reflexivity|].
  destruct (String.eqb k' k) eqn:E.
  - apply String.eqb_eq in E. intros [= ->]. now subst.
  - intros H. now rewrite IH.
Qed.

Lemma set_present o k v w :
  JsObject.get o k = Some w -> JsObject.set o k v = JsObject.replace o k v.
Proof. intros H. unfold JsObject.set, JsObject.has. now rewrite H. Qed.

End Objects.

(** *** The total under taps *)

Section Sums.
Variable ps : list Product.t.



End Sums.



End CartMoreProofs.

(** ** The order editor *)

Module EditorProofs.
Import JsString App Cart JsObjectFacts CartProofs CartMoreProofs RoundTrip RoundTripProofs.

Lemma editingItems_updateEditingOrderItems m st :
  editingItems (Admin.updateEditingOrderItems m st) = editingItems st.
Proof. unfold Admin.updateEditingOrderItems. now destruct (editingOrder st). Qed.








End EditorProofs.

(** ** The cart on every value: C1 and C10 *)

Module RawCartProofs.
Import RawCart JsObjectFacts CartMoreProofs.

Lemma plain_not_proto k : inherited k = false -> String.eqb k "__proto__" = false.
Proof.
  intros H. destruct (String.eqb k "__proto__") eqn:E; [|reflexivity].
  apply String.eqb_eq in E. subst k. discriminate.
Qed.

Lemma assign_plain o k v : inherited k = false -> assign o k v = JsObject.set o k v.
Proof. intros H. unfold assign. now rewrite (plain_not_proto k H). Qed.

Lemma lookup_plain o k :
  inherited k = false ->
  lookup o k = match JsObject.get o k with Some v => Own v | None => Undefined end.
Proof. intros H. unfold lookup. now rewrite H. Qed.



Lemma positiveNumbers_get c k v :
  positiveNumbers c -> JsObject.get c k = Some v -> exists q, v = VNum q /\ 0 < q.
Proof.
  intros Hc Hg. apply get_In in Hg.
  unfold positiveNumbers, JsObject.entries in Hc. rewrite Forall_forall in Hc.
  exact (Hc _ Hg).
Qed.

Lemma positiveNumbers_cartValues c : positiveNumbers c -> cartValues c.
Proof.
  unfold positiveNumbers, cartValues. apply Forall_impl.
  intros [k v] (q & Hv & Hq). simpl in Hv. subst v. exact Hq.
Qed.


Lemma selectedItems_updateItemQuantity id delta d :
  selectedItems (updateItemQuantity id delta d) =
  let newQty := orZeroPlus (lookup (selectedItems d) id) delta in
  if leZero newQty then JsObject.remove (selectedItems d) id
  else assign (selectedItems d) id newQty.
Proof. reflexivity. Qed.




Lemma positiveNumbers_updateItemQuantity id delta d :
  inherited id = false ->
  positiveNumbers (selectedItems d) ->
  positiveNumbers (selectedItems (updateItemQuantity id delta d)).
Proof.
  intros Hi Hc. rewrite selectedItems_updateItemQuantity. cbv zeta.
  rewrite (lookup_plain _ _ Hi), assign_plain by exact Hi.
  destruct (leZero _) eqn:Hle.
  - unfold positiveNumbers, JsObject.entries in *. now apply Forall_remove.
  - unfold positiveNumbers, JsObject.entries in *. apply Forall_set; [|exact Hc].
    destruct (JsObject.get (selectedItems d) id) as [v|] eqn:Hg.
    + destruct (positiveNumbers_get _ id v Hc Hg) as (q & -> & Hq). cbn in *.
      apply Z.leb_gt in Hle. eauto.
    + cbn in *. apply Z.leb_gt in Hle. eauto.
Qed.







Lemma draft_ext d d' :
  name d = name d' -> phone d = phone d' -> selectedItems d = selectedItems d' ->
  paymentMethod d = paymentMethod d' -> time d = time d' -> d = d'.
Proof. destruct d, d'; simpl; intros; subst; reflexivity. Qed.





(** *** The handlers on dictionaries of numbers are those on values *)

Section Numbers.
Implicit Types (c : JsObject.t Z) (k : string).

Lemma get_numbers c k : JsObject.get (numbers c) k = option_map VNum (JsObject.get c k).
Proof.
  induction c as [|[k' v'] c IH]; simpl; [reflexivity|].
  now destruct (String.eqb k' k).
Qed.

Lemma has_numbers c k : JsObject.has (numbers c) k = JsObject.has c k.
Proof. unfold JsObject.has. rewrite get_numbers. now destruct (JsObject.get c k). Qed.

Lemma remove_numbers c k : JsObject.remove (numbers c) k = numbers (JsObject.remove c k).
Proof.
  induction c as [|[k' v'] c IH]; simpl; [reflexivity|].
  destruct (String.eqb k' k); simpl; now rewrite IH.
Qed.

Lemma replace_numbers c k q :
  JsObject.replace (numbers c) k (VNum q) = numbers (JsObject.replace c k q).
Proof.
  induction c as [|[k' v'] c IH]; simpl; [reflexivity|].
  destruct (String.eqb k' k); simpl; now rewrite ?IH.
Qed.

Lemma insert_index_numbers c n k q :
  JsObject.insert_index (numbers c) n k (VNum q) = numbers (JsObject.insert_index c n k q).
Proof.
  induction c as [|[k' v'] c IH]; simpl; [reflexivity|].
  destruct (JsObject.array_index k') as [m|]; [destruct (n <? m)%N|]; simpl;
    now rewrite ?IH.
Qed.

Lemma set_numbers c k q : JsObject.set (numbers c) k (VNum q) = numbers (JsObject.set c k q).
Proof.
  unfold JsObject.set. rewrite has_numbers. destruct (JsObject.has c k).
  - apply replace_numbers.
  - destruct (JsObject.array_index k).
    + apply insert_index_numbers.
    + unfold numbers. now rewrite map_app.
Qed.

End Numbers.

(** For an id that is not the name of a member of [Object.prototype],
    [updateItemQuantity] on a draft of numbers is the handler on values. *)
Lemma updateItemQuantity_refines id delta (d : OrderData.t) :
  inherited id = false ->
  updateItemQuantity id delta (ofOrderData d)
  = ofOrderData (App.updateItemQuantity_prev id delta d).
Proof.
  intros Hi. unfold updateItemQuantity, App.updateItemQuantity_prev, ofOrderData.
  cbn [name phone selectedItems paymentMethod time
       OrderData.name OrderData.phone OrderData.selectedItems
       OrderData.paymentMethod OrderData.time OrderData.with_selectedItems].
  unfold JsObject.spread. f_equal.
  rewrite (lookup_plain _ _ Hi), assign_plain, get_numbers by exact Hi.
  destruct (JsObject.get (OrderData.selectedItems d) id) as [q|];
    cbn [option_map orZeroPlus leZero];
    destruct (_ <=? 0); first [apply remove_numbers | apply set_numbers].
Qed.

Lemma step_refines (st : App.State) op :
  plainOp op ->
  step (ofOrderData (App.orderData st)) op = ofOrderData (App.orderData (Cart.step st op)).
Proof.
  intros Hop. destruct op as [id | id]; now apply updateItemQuantity_refines.
Qed.

(** Likewise for the two buttons of a row of the order editor. *)
Lemma editor_refines pid (st : App.State) :
  inherited pid = false ->
  decrementEditingItems pid (numbers (App.editingItems st))
    = numbers (App.editingItems (Admin.decrementEditing pid st)) /\
  incrementEditingItems pid (numbers (App.editingItems st))
    = numbers (App.editingItems (Admin.incrementEditing pid st)).
Proof.
  intros Hi. unfold Admin.decrementEditing, Admin.incrementEditing.
  rewrite !EditorProofs.editingItems_updateEditingOrderItems.
  cbn [App.setEditingItems App.editingItems].
  unfold decrementEditingItems, incrementEditingItems, Admin.editingQty, JsObject.spread.
  rewrite (lookup_plain _ _ Hi), get_numbers.
  destruct (JsObject.get (App.editingItems st) pid) as [q|];
    cbn [option_map orZeroPlus maxZeroMinusOne isZero]; rewrite !set_numbers;
    (split; [|reflexivity]);
    destruct (_ =? 0); first [apply remove_numbers | reflexivity].
Qed.

(** *** What the handlers on values do beyond C1 and C10 *)

(** X4: on a cart of positive quantities a tap on [-] right after a tap
    on [+] of a product gives back the draft as it was, entry order
    included, when the id of the product is not the name of a member of
    [Object.prototype]; it does not when the id is such a name, other
    than [__proto__], that the cart does not hold. *)
Theorem decrement_undoes_increment (d : Draft) (id : string) :
  positiveNumbers (selectedItems d) ->
  (inherited id = false ->
   updateItemQuantity id (-1) (updateItemQuantity id 1 d) = d) /\
  (inherited id = true -> id <> "__proto__" ->
   JsObject.get (selectedItems d) id = None ->
   updateItemQuantity id (-1) (updateItemQuantity id 1 d) <> d).
Proof.
  intros Hp. split.
  - intros Hi. apply draft_ext; try reflexivity.
    rewrite !selectedItems_updateItemQuantity. cbv zeta.
    rewrite !(lookup_plain _ _ Hi), !assign_plain by exact Hi.
    destruct (JsObject.get (selectedItems d) id) as [v|] eqn:Hg.
    + destruct (positiveNumbers_get _ id v Hp Hg) as (q & -> & Hq).
      cbn [orZeroPlus leZero].
      destruct (Z.eqb_spec q 0); [lia|].
      destruct (Z.leb_spec (q + 1) 0); [lia|].
      rewrite get_set_same. cbn [orZeroPlus leZero].
      destruct (Z.eqb_spec (q + 1) 0); [lia|].
      replace (q + 1 + -1) with q by lia.
      destruct (Z.leb_spec q 0); [lia|].
      rewrite (set_present _ id (VNum q) (VNum (q + 1))) by apply get_set_same.
      rewrite (set_present _ id (VNum (q + 1)) (VNum q)) by exact Hg.
      rewrite replace_replace. now apply replace_same.
    + cbn [orZeroPlus leZero Z.add Z.leb Z.compare].
      rewrite get_set_same. cbn [orZeroPlus leZero Z.eqb Z.add Z.leb Z.compare].
      rewrite remove_set. now apply remove_absent.
  - intros Hi Hne Hg H.
    apply (f_equal (fun x => JsObject.get (selectedItems x) id)) in H.
    rewrite !selectedItems_updateItemQuantity in H. cbv zeta in H.
    apply String.eqb_neq in Hne.
    unfold lookup, assign in H. rewrite Hne, Hg, Hi in H.
    cbn [andb orZeroPlus leZero] in H.
    rewrite get_set_same in H. cbn [orZeroPlus leZero] in H.
    rewrite get_set_same in H. discriminate.
Qed.

Lemma decrement_undoes_increment_witness :
  let d := ofOrderData Example.draft in
  updateItemQuantity "B" (-1) (updateItemQuantity "B" 1 d) = d /\
  updateItemQuantity "7" (-1) (updateItemQuantity "7" 1 d) = d /\
  updateItemQuantity "toString" (-1) (updateItemQuantity "toString" 1 d) <> d.
Proof.
  intros d.
  assert (Hp : positiveNumbers (selectedItems d)) by (repeat econstructor).
  split; [|split].
  - exact (proj1 (decrement_undoes_increment d "B" Hp) eq_refl).
  - exact (proj1 (decrement_undoes_increment d "7" Hp) eq_refl).
  - apply (proj2 (decrement_undoes_increment d "toString" Hp)).
    + reflexivity.
    + discriminate.
    + reflexivity.
Defined.

(** X7: for a product whose id is not the name of a member of
    [Object.prototype] and whose stored value is no text, [removeFromCart]
    of the earlier storefront changes a cart exactly as a tap on [-] of
    [updateItemQuantity] does, and [addToCart] exactly as a tap on [+]
    does when the stored quantity is not negative. *)
Theorem legacy_cart_agrees (d : Draft) (id : string) :
  inherited id = false ->
  (forall m ns, JsObject.get (selectedItems d) id <> Some (VText m ns)) ->
  LegacyCart.removeFromCart id (selectedItems d)
    = selectedItems (updateItemQuantity id (-1) d) /\
  ((forall q, JsObject.get (selectedItems d) id = Some (VNum q) -> 0 <= q) ->
   LegacyCart.addToCart id (selectedItems d)
     = selectedItems (updateItemQuantity id 1 d)).
Proof.
  intros Hi Htext. rewrite !selectedItems_updateItemQuantity. cbv zeta.
  unfold LegacyCart.removeFromCart, LegacyCart.addToCart, JsObject.spread.
  rewrite !(lookup_plain _ _ Hi), !assign_plain by exact Hi.
  destruct (JsObject.get (selectedItems d) id) as [[q | | m ns]|] eqn:Hg;
    cbn [orZeroPlus leZero].
  - split.
    + destruct (Z.eqb_spec q 0) as [-> | Hq0]; [reflexivity|].
      replace (q + -1) with (q - 1) by lia.
      destruct (Z.ltb_spec 1 q), (Z.leb_spec (q - 1) 0); try lia;
        rewrite ?assign_plain by exact Hi; reflexivity.
    + intros Hq. specialize (Hq q eq_refl).
      destruct (Z.eqb_spec q 0) as [-> | Hq0]; [reflexivity|].
      destruct (Z.leb_spec (q + 1) 0); [lia | reflexivity].
  - split; reflexivity.
  - exfalso. exact (Htext m ns eq_refl).
  - split; reflexivity.
Qed.

Lemma legacy_cart_agrees_witness :
  let d := ofOrderData Example.draft in
  LegacyCart.removeFromCart "B" (selectedItems d) = [("A", VNum 2)] /\
  LegacyCart.addToCart "A" (selectedItems d) = [("A", VNum 3); ("B", VNum 1)].
Proof.
  intros d.
  assert (HB : forall m ns, JsObject.get (selectedItems d) "B" <> Some (VText m ns))
    by (intros m ns; discriminate).
  assert (HA : forall m ns, JsObject.get (selectedItems d) "A" <> Some (VText m ns))
    by (intros m ns; discriminate).
  split.
  - exact (eq_trans (proj1 (legacy_cart_agrees d "B" eq_refl HB)) eq_refl).
  - refine (eq_trans (proj2 (legacy_cart_agrees d "A" eq_refl HA) _) eq_refl).
    intros q [= <-]. lia.
Defined.

(** On the names of inherited members the two carts part: the earlier
    [removeFromCart] leaves an empty cart empty where the tap on [-]
    inserts a key, and the earlier [addToCart] defines [__proto__] where
    the tap on [+] stores nothing. *)
Remark legacy_cart_parts_on_inherited_names :
  LegacyCart.removeFromCart "valueOf" [] = [] /\
  selectedItems (updateItemQuantity "valueOf" (-1) emptyDraft)
    = [("valueOf", VText "valueOf" [-1])] /\
  LegacyCart.addToCart "__proto__" [] = [("__proto__", VText "__proto__" [1])] /\
  selectedItems (updateItemQuantity "__proto__" 1 emptyDraft) = [].
Proof. repeat split. Qed.

(** X8: for a product whose id is not the name of a member of
    [Object.prototype] and whose stored value is no text, the [-] button
    of the order editor changes [editingItems] exactly as a tap on [-]
    changes a cart holding the same entries, and the [+] button exactly
    as a tap on [+] when the stored quantity is not negative; so
    quantities that are positive stay positive. *)
Theorem editor_taps_agree_with_cart (d : Draft) (pid : string) :
  inherited pid = false ->
  (forall m ns, JsObject.get (selectedItems d) pid <> Some (VText m ns)) ->
  decrementEditingItems pid (selectedItems d)
    = selectedItems (updateItemQuantity pid (-1) d) /\
  ((forall q, JsObject.get (selectedItems d) pid = Some (VNum q) -> 0 <= q) ->
   incrementEditingItems pid (selectedItems d)
     = selectedItems (updateItemQuantity pid 1 d)) /\
  (positiveNumbers (selectedItems d) ->
   positiveNumbers (decrementEditingItems pid (selectedItems d)) /\
   positiveNumbers (incrementEditingItems pid (selectedItems d))).
Proof.
  intros Hi Htext.
  assert (Hminus : decrementEditingItems pid (selectedItems d)
                   = selectedItems (updateItemQuantity pid (-1) d)).
  { rewrite selectedItems_updateItemQuantity. cbv zeta.
    unfold decrementEditingItems, JsObject.spread.
    rewrite !(lookup_plain _ _ Hi), !assign_plain by exact Hi.
    assert (Hnum : forall n,
      (if isZero (VNum (Z.max 0 (n - 1)))
       then JsObject.remove (JsObject.set (selectedItems d) pid (VNum (Z.max 0 (n - 1)))) pid
       else JsObject.set (selectedItems d) pid (VNum (Z.max 0 (n - 1))))
      = (if leZero (VNum (n + -1)) then JsObject.remove (selectedItems d) pid
         else JsObject.set (selectedItems d) pid (VNum (n + -1)))).
    { intros n. cbn [isZero leZero]. destruct (Z.leb_spec (n + -1) 0).
      - replace (Z.max 0 (n - 1)) with 0 by lia. cbn [Z.eqb]. apply remove_set.
      - replace (Z.max 0 (n - 1)) with (n + -1) by lia.
        destruct (Z.eqb_spec (n + -1) 0); [lia | reflexivity]. }
    destruct (JsObject.get (selectedItems d) pid) as [[q | | m ns]|] eqn:Hg;
      cbn [orZeroPlus maxZeroMinusOne].
    - apply Hnum.
    - apply (Hnum 0).
    - exfalso. exact (Htext m ns eq_refl).
    - apply (Hnum 0). }
  assert (Hplus : (forall q, JsObject.get (selectedItems d) pid = Some (VNum q) -> 0 <= q) ->
                  incrementEditingItems pid (selectedItems d)
                  = selectedItems (updateItemQuantity pid 1 d)).
  { intros Hq. rewrite selectedItems_updateItemQuantity. cbv zeta.
    unfold incrementEditingItems, JsObject.spread.
    rewrite !(lookup_plain _ _ Hi), !assign_plain by exact Hi.
    destruct (JsObject.get (selectedItems d) pid) as [[q | | m ns]|] eqn:Hg;
      cbn [orZeroPlus leZero]; try reflexivity.
    specialize (Hq q eq_refl).
    destruct (Z.eqb_spec q 0) as [-> | Hq0]; [reflexivity|].
    destruct (Z.leb_spec (q + 1) 0); [lia | reflexivity]. }
  split; [exact Hminus|]. split; [exact Hplus|].
  intros Hp. split.
  - rewrite Hminus. now apply positiveNumbers_updateItemQuantity.
  - rewrite Hplus.
    + now apply positiveNumbers_updateItemQuantity.
    + intros q Hg. destruct (positiveNumbers_get _ pid _ Hp Hg) as (n & [= <-] & Hn). lia.
Qed.

Lemma editor_taps_agree_with_cart_witness :
  let d := ofOrderData Example.draft in
  incrementEditingItems "A" (selectedItems d) = [("A", VNum 3); ("B", VNum 1)] /\
  decrementEditingItems "B" (selectedItems d) = [("A", VNum 2)].
Proof.
  intros d.
  assert (HB : forall m ns, JsObject.get (selectedItems d) "B" <> Some (VText m ns))
    by (intros m ns; discriminate).
  assert (HA : forall m ns, JsObject.get (selectedItems d) "A" <> Some (VText m ns))
    by (intros m ns; discriminate).
  destruct (editor_taps_agree_with_cart d "A" eq_refl HA) as (_ & Hplus & _).
  destruct (editor_taps_agree_with_cart d "B" eq_refl HB) as (Hminus & _ & _).
  split.
  - rewrite Hplus; [reflexivity|]. intros q [= <-]. lia.
  - rewrite Hminus. reflexivity.
Defined.

(** On the name of an inherited member the [-] button of the editor
    stores [NaN]. *)
Remark editor_minus_on_an_inherited_name :
  decrementEditingItems "valueOf" [] = [("valueOf", VNaN)].
Proof. reflexivity. Qed.

End RawCartProofs.

(** ** The total: C2 *)

Module PricingProofs.
Import App Pricing.

Lemma findById_priceIn ps id :
  match findById ps id with Some p => Product.price p | None => 0%Q end = priceIn ps id.
Proof.
  unfold findById. induction ps as [|p ps IH]; simpl; [reflexivity|].
  now destruct (String.eqb (Product.id p) id).
Qed.

Lemma priceIn_unlisted ps id : listed ps id = false -> priceIn ps id = 0%Q.
Proof.
  induction ps as [|p ps IH]; simpl; [reflexivity|].
  destruct (String.eqb (Product.id p) id); [discriminate | exact IH].
Qed.

Lemma fold_total_sumFrom ps es acc :
  fold_left
    (fun (a : Q) (e : string * Z) =>
       let '(id, qty) := e in
       let product := findById ps id in
       let price := match product with Some p => Product.price p | None => 0%Q end in
       (a + price * inject_Z qty)%Q) es acc
  = sumFrom acc ps es.
Proof.
  revert acc. induction es as [|[id qty] es IH]; intros acc; simpl; [reflexivity|].
  rewrite IH. unfold lineAmount. simpl. now rewrite findById_priceIn.
Qed.

Lemma Qplus_zero_amount (acc : Q) (q : Z) : (acc + 0 * inject_Z q)%Q = acc.
Proof.
  destruct acc as [n d]. unfold Qplus, Qmult, inject_Z. cbn [Qnum Qden].
  cbn [Z.mul Pos.mul]. rewrite Z.mul_1_r, Z.add_0_r, Pos.mul_1_r. reflexivity.
Qed.

Lemma lineAmount_unlisted ps e acc :
  listed ps (fst e) = false -> (acc + lineAmount ps e)%Q = acc.
Proof.
  intros H. unfold lineAmount. rewrite (priceIn_unlisted _ _ H).
  apply Qplus_zero_amount.
Qed.

Lemma sumFrom_listed ps es acc :
  sumFrom acc ps es = sumFrom acc ps (filter (fun e => listed ps (fst e)) es).
Proof.
  revert acc. induction es as [|e es IH]; intros acc; simpl; [reflexivity|].
  destruct (listed ps (fst e)) eqn:E; simpl.
  - apply IH.
  - rewrite (lineAmount_unlisted _ _ _ E). apply IH.
Qed.

Lemma fold_totalStep ps es acc :
  fold_left (totalStep ps) es (Normal acc)
  = Normal
      (fold_left
         (fun (a : Q) (e : string * Z) =>
            let '(id, qty) := e in
            let product := findById ps id in
            let price := match product with Some p => Product.price p | None => 0%Q end in
            (a + price * inject_Z qty)%Q) es acc).
Proof.
  revert acc. induction es as [|[id qty] es IH]; intros acc; simpl; [reflexivity|].
  destruct (findById ps id); simpl; apply IH.
Qed.

(** C2: whatever the cart and whatever catalog is now in the state, the
    total is the amounts of the entries of the cart added up from zero,
    first entry first, each amount being the quantity times the price
    that this catalog gives to the id; an entry whose id has no catalog
    entry adds exactly nothing to any sum, so that the total is also the
    sum over the entries that have one; and the evaluation of [total],
    with the read of [product.price] throwing on [undefined], ends
    normally with that value.  The equalities are those of the values
    themselves, with the additions in the order of the program. *)
Theorem total_is_sum_at_current_prices (st : State) (ps : list Product.t) :
  let es := JsObject.entries (Cart.cartOf st) in
  total (setProducts ps st) = sumOfLines ps es /\
  total (setProducts ps st)
    = sumOfLines ps (filter (fun e => listed ps (fst e)) es) /\
  (forall acc e, listed ps (fst e) = false -> (acc + lineAmount ps e)%Q = acc) /\
  totalEvaluated (Cart.cartOf st) ps = Normal (total (setProducts ps st)).
Proof.
  intros es.
  assert (Htotal : total (setProducts ps st) = sumOfLines ps es).
  { unfold total, total_of. cbn [setProducts products orderData].
    apply fold_total_sumFrom. }
  split; [exact Htotal|]. split; [|split].
  - rewrite Htotal. apply sumFrom_listed.
  - intros acc e. apply lineAmount_unlisted.
  - unfold totalEvaluated. rewrite fold_totalStep. reflexivity.
Qed.

Lemma total_is_sum_at_current_prices_witness :
  let st := updateItemQuantity "Z" 1 Example.state in
  let dearer := [Product.mk "A" "A" 6 None None; Product.mk "B" "B" 3 None None] in
  total st = sumOfLines Example.catalog [("A", 2); ("B", 1); ("Z", 1)] /\
  total st = 13%Q /\
  total (setProducts dearer st) = 15%Q /\
  (13 + lineAmount Example.catalog ("Z", 1%Z))%Q = 13%Q /\
  totalEvaluated (Cart.cartOf st) Example.catalog = Normal (total st).
Proof.
  intros st dearer.
  destruct (total_is_sum_at_current_prices st Example.catalog) as (Hsum & _ & Hzero & Hev).
  destruct (total_is_sum_at_current_prices st dearer) as (_ & Hknown & _ & _).
  split; [exact Hsum|]. split; [reflexivity|]. split; [|split].
  - rewrite Hknown. reflexivity.
  - apply Hzero. reflexivity.
  - exact Hev.
Defined.

(** X5: the first tap on [+] of a product that the cart does not hold,
    whose id is neither an array index nor the name of a member of
    [Object.prototype], appends its entry to the cart, so that the new
    total is the old total and one more addition: that of the price that
    the catalog gives to the id, times 1. *)
Theorem total_follows_first_tap (st : State) (id : string) :
  RawCart.inherited id = false ->
  JsObject.get (Cart.cartOf st) id = None ->
  JsObject.array_index id = None ->
  JsObject.entries (Cart.cartOf (updateItemQuantity id 1 st))
    = (JsObject.entries (Cart.cartOf st) ++ [(id, 1)])%list /\
  total (updateItemQuantity id 1 st)
    = (total st + priceIn (products st) id * inject_Z 1)%Q.
Proof.
  intros _ Hg Hidx.
  assert (Hitems : Cart.cartOf (updateItemQuantity id 1 st)
                   = (Cart.cartOf st ++ [(id, 1)])%list).
  { unfold Cart.cartOf, updateItemQuantity, updateItemQuantity_prev.
    cbn [setOrderData orderData OrderData.selectedItems OrderData.with_selectedItems].
    fold (Cart.cartOf st). rewrite Hg. cbn [Z.add Z.leb Z.compare].
    unfold JsObject.spread, JsObject.set, JsObject.has. now rewrite Hg, Hidx. }
  split; [exact Hitems|].
  unfold total, total_of. fold (Cart.cartOf (updateItemQuantity id 1 st)).
  fold (Cart.cartOf st). rewrite Hitems. unfold JsObject.entries.
  rewrite fold_left_app. cbn [fold_left]. cbv zeta.
  assert (Hps : products (updateItemQuantity id 1 st) = products st) by reflexivity.
  rewrite Hps. now rewrite findById_priceIn.
Qed.

Lemma total_follows_first_tap_witness :
  JsObject.entries (Cart.cartOf (updateItemQuantity "C" 1 Example.state))
    = [("A", 2); ("B", 1); ("C", 1)] /\
  total (updateItemQuantity "B2" 1 (setProducts (Product.mk "B2" "B2" 4 None None
                                                  :: Example.catalog) Example.state))
    = (5 * 2 + 3 * 1 + 4 * 1)%Q.
Proof.
  split.
  - exact (proj1 (total_follows_first_tap Example.state "C" eq_refl eq_refl eq_refl)).
  - exact (eq_trans
             (proj2 (total_follows_first_tap
                       (setProducts (Product.mk "B2" "B2" 4 None None :: Example.catalog)
                                    Example.state)
                       "B2" eq_refl eq_refl eq_refl))
             eq_refl).
Defined.

End PricingProofs.

(** ** The password gate *)

Module GateProofs.
Import JsString App Admin.

Lemma effectivePassword_not_empty s : effectivePassword s <> "".
Proof.
  unfold effectivePassword.
  destruct (JsObject.get s "admin_password") as [[|c p]|]; discriminate.
Qed.

(** X11: whatever the settings hold, a login with an empty password
    field is refused: the session is left as it was and the alert is
    shown; and when the settings hold no admin password, or an empty
    one, the password [admin123] is accepted. *)
Theorem gate_password_rules (g : Session) :
  (adminPassword g = "" -> loginClick g = (g, [AlertText "Senha incorreta"])) /\
  (JsObject.get (settings g) "admin_password" = None \/
   JsObject.get (settings g) "admin_password" = Some "" ->
   adminPassword g = "admin123" ->
   loginClick g = (mkSession (app g) true "admin123" (settings g), [FetchAdminOrders])).
Proof.
  unfold loginClick. split.
  - intros Hp. rewrite Hp.
    destruct (String.eqb_spec "" (effectivePassword (settings g))) as [E|E];
      [|reflexivity].
    symmetry in E. now apply effectivePassword_not_empty in E.
  - intros Hs Hp. rewrite Hp. unfold effectivePassword.
    destruct Hs as [-> | ->]; reflexivity.
Qed.

Lemma gate_password_rules_witness :
  let g := mkSession (setPage admin initialState) false "" [("admin_password", "segredo")] in
  fst (loginClick g) = g /\
  isAdminAuthenticated
    (fst (loginClick (mkSession (setPage admin initialState) false "admin123"
                                [("site_name", "vovosbaked")]))) = true.
Proof.
  intros g. split.
  - now rewrite (proj1 (gate_password_rules g) eq_refl).
  - rewrite (proj2 (gate_password_rules
                      (mkSession (setPage admin initialState) false "admin123"
                                 [("site_name", "vovosbaked")]))
                   (or_introl eq_refl) eq_refl).
    reflexivity.
Defined.

(** X12: once the panel is shown, leaving the admin page with the gear
    button and coming back shows the panel again with the password field
    empty, while [handleLogout] brings back the password form. *)
Theorem gate_survives_toggle_not_logout (g : Session) :
  panelShown g = true ->
  panelShown (toggleAdmin (toggleAdmin g)) = true /\
  adminPassword (toggleAdmin (toggleAdmin g)) = "" /\
  page (app (toggleAdmin g)) = schedule /\
  panelShown (toggleAdmin (handleLogout g)) = false.
Proof.
  unfold panelShown, toggleAdmin, handleLogout.
  destruct g as [[pg sd av ld pe ps eo ei od] auth pw s].
  cbn. destruct pg; try discriminate. intros ->. repeat split.
Qed.

Lemma gate_survives_toggle_not_logout_witness :
  let g := mkSession (setPage admin initialState) true "admin123" [] in
  panelShown (toggleAdmin (toggleAdmin g)) = true /\
  panelShown (toggleAdmin (handleLogout g)) = false.
Proof.
  intros g.
  destruct (gate_survives_toggle_not_logout g eq_refl) as (H1 & _ & _ & H2).
  now split.
Defined.

End GateProofs.

(** ** Submission as a whole *)

Module SubmitMoreProofs.
Import JsString App Workflow.

Lemma ok_reply j : exists j', Response true j = Response true j'.
Proof. now exists j. Qed.

(** X13: whatever the reply, [submitOrder] changes neither the draft nor
    the selected date nor the catalog; it sends at most one request and
    shows at most one alert; it moves to the success page only on an ok
    response to a request it sent, then without an alert; and once a
    request was sent, [loading] is off again, an ok response leads to the
    success page and every other outcome shows an alert. *)
Theorem submitOrder_frame (reply : FetchOutcome) (st : State) :
  let st' := fst (submitOrder reply st) in
  let out := snd (submitOrder reply st) in
  orderData st' = orderData st /\ selectedDate st' = selectedDate st /\
  products st' = products st /\
  (List.length (requests out) <= 1)%nat /\ (List.length (alerts out) <= 1)%nat /\
  (page st' = page st \/
   (page st' = success /\ (exists j, reply = Response true j) /\
    List.length (requests out) = 1%nat /\ alerts out = [])) /\
  (requests out <> [] ->
   loading st' = false /\
   ((exists j, reply = Response true j) -> page st' = success) /\
   (alerts out = [] -> exists j, reply = Response true j)).
Proof.
  unfold submitOrder.
  destruct (selectedDate st) as [d|] eqn:Hd;
    [|cbn; rewrite Hd; repeat split; auto; congruence].
  destruct (Qeq_bool (total st) 0);
    [cbn; rewrite Hd; repeat split; auto; congruence|].
  destruct (validatePhone (OrderData.phone (orderData st)));
    cbn [negb]; [|cbn; rewrite Hd; repeat split; auto; congruence].
  destruct reply as [|[] [err|]];
    try destruct (Json_error_field err) as [[v|]|];
    cbn; rewrite ?Hd;
    repeat split; auto;
    try (right; repeat split; auto; apply ok_reply);
    try apply ok_reply;
    try discriminate;
    try (intros [j [=]]);
    try (intros _; apply ok_reply).
Qed.

Lemma submitOrder_frame_witness :
  page (fst (submitOrder (Response true None) Example.state)) = success /\
  orderData (fst (submitOrder (Response true None) Example.state))
    = orderData Example.state /\
  alerts (snd (submitOrder NetworkError Example.state)) = [JStr connectionError].
Proof.
  destruct (submitOrder_frame (Response true None) Example.state)
    as (Hdraft & _ & _ & _ & _ & _ & Hsent).
  split; [|split].
  - apply Hsent; [discriminate | apply ok_reply].
  - exact Hdraft.
  - reflexivity.
Defined.

End SubmitMoreProofs.

(** ** Links and the availability map *)

Module LinkMoreProofs.
Import JsString App Workflow Link.

#[local] Arguments Array_includes : simpl never.

Section Platform.
Variable Date_parse : string -> option Date.t.

(** X14: loading from a link never consults the availability map: the
    outcome is the same whatever the map holds, so a date that the map
    marks [sold_out] is pre-selected, and the order step is reached when
    the slot is in [TIME_SLOTS]. *)
Theorem link_ignores_availability
  (dp tp : option string) (a : Availability) (st : State) :
  fetchData Date_parse dp tp (setAvailability a st)
    = setAvailability a (fetchData Date_parse dp tp st) /\
  (forall d v t,
     dp = Some v -> v <> "" -> Date_parse (v ++ "T12:00:00") = Some d ->
     Date.isSunday d = false ->
     tp = Some t -> Array_includes TIME_SLOTS t = true ->
     JsObject.get a (Date.format_iso d) = Some sold_out ->
     let st' := fetchData Date_parse dp tp (setAvailability a st) in
     page st' = order /\ selectedDate st' = Some d /\ selectedSoldOut st' = true).
Proof.
  split.
  - unfold fetchData. destruct dp as [v|]; [|reflexivity].
    destruct (truthy v); [|reflexivity].
    destruct (Date_parse (v ++ "T12:00:00")) as [d|]; [|reflexivity].
    destruct (negb (Date.isSunday d)); [|reflexivity].
    destruct tp as [t|]; [|reflexivity].
    destruct (truthy t && Array_includes TIME_SLOTS t); reflexivity.
  - intros d v t -> Hv Hparse Hday -> Hslot Hsold st'. subst st'.
    unfold fetchData. destruct v as [|c v]; [congruence|].
    cbn [truthy]. rewrite Hparse, Hday. cbn [negb].
    rewrite (MountProofs.slot_truthy t Hslot), Hslot. cbn [andb].
    split; [reflexivity|]. split; [reflexivity|].
    unfold selectedSoldOut.
    cbn [setPage setOrderData setSelectedDate setAvailability selectedDate availability].
    now rewrite Hsold.
Qed.

End Platform.

Lemma link_ignores_availability_witness :
  let a : Availability := [("2026-03-02", sold_out)] in
  let st' := fetchData Example.parseOnly (Some "2026-03-02") (Some "10:00")
                       (setAvailability a initialState) in
  page st' = order /\ selectedDate st' = Some Example.monday /\
  selectedSoldOut st' = true.
Proof.
  intros a.
  exact (proj2 (link_ignores_availability Example.parseOnly
                  (Some "2026-03-02") (Some "10:00") a initialState)
               Example.monday "2026-03-02" "10:00"
               eq_refl ltac:(discriminate) eq_refl eq_refl eq_refl eq_refl eq_refl).
Defined.

Section Gates.
Variable Date_parse : string -> option Date.t.
Variable Number_toFixed2 : Q -> string.

(** X15: on the scheduling step, while the selected date is marked sold
    out, neither a slot button nor the continue button changes anything;
    and the continue button leaves the scheduling step only when a date
    and a slot are selected, pushing the link of that date and slot. *)
Theorem schedule_step_gates (st : State) (slot : string) :
  page st = schedule ->
  (selectedSoldOut st = true ->
   step Date_parse Number_toFixed2 st (PickSlot slot) = (st, []) /\
   step Date_parse Number_toFixed2 st Proceed = (st, [])) /\
  (page (fst (step Date_parse Number_toFixed2 st Proceed)) = order ->
   exists d,
     selectedDate st = Some d /\ OrderData.time (orderData st) <> "" /\
     selectedSoldOut st = false /\
     step Date_parse Number_toFixed2 st Proceed =
       (setPage order st,
        [PushState ("?data=" ++ Date.format_iso d ++ "&hora=" ++
                    OrderData.time (orderData st))])).
Proof.
  intros Hpage. unfold step. rewrite Hpage. split.
  - intros Hsold. unfold slotsShown, proceedDisabled. rewrite Hsold.
    destruct (selectedDate st); cbn [negb andb]; [|now split].
    now rewrite orb_true_r.
  - unfold proceedDisabled, proceedToOrder.
    destruct (selectedDate st) as [d|]; [|cbn; rewrite Hpage; discriminate].
    destruct (OrderData.time (orderData st)) as [|c t] eqn:Ht;
      [cbn; rewrite Hpage; discriminate|].
    cbn [truthy negb orb].
    destruct (selectedSoldOut st); [cbn; rewrite Hpage; discriminate|].
    intros _. exists d. repeat split. discriminate.
Qed.

End Gates.

Lemma schedule_step_gates_witness :
  let st := setPage schedule Example.state in
  step Example.parseOnly (fun _ => "") st Proceed =
    (Example.state, [PushState "?data=2026-03-02&hora=10:00"]) /\
  step Example.parseOnly (fun _ => "")
       (setAvailability [("2026-03-02", sold_out)] st) (PickSlot "11:00")
    = (setAvailability [("2026-03-02", sold_out)] st, []).
Proof.
  intros st. split.
  - destruct (proj2 (schedule_step_gates Example.parseOnly (fun _ => "") st "" eq_refl) eq_refl)
      as (d & Hd & _ & _ & Hstep).
    injection Hd as <-. exact Hstep.
  - exact (proj1 (proj1 (schedule_step_gates Example.parseOnly (fun _ => "")
                           (setAvailability [("2026-03-02", sold_out)] st)
                           "11:00" eq_refl) eq_refl)).
Defined.

End LinkMoreProofs.

(** ** The two formats of an items text *)

Module SplitProofs.
Import JsString JsStringFacts App RoundTrip RoundTripProofs.

Lemma split_from_comma_piece l r cur :
  separatorFree l = true ->
  split_from (l ++ String "," (String " " r)) cur = (cur ++ l) :: split_from r "".
Proof.
  revert cur. induction l as [|c l IH]; intros cur Hl.
  - simpl. now rewrite append_nil_r.
  - unfold separatorFree in Hl. apply andb_prop in Hl. destruct Hl as [Hlf Hsep].
    simpl in Hlf. apply andb_prop in Hlf. destruct Hlf as [Hc Hlf].
    apply negb_true_iff in Hc. apply negb_true_iff in Hsep.
    assert (Hl' : separatorFree l = true).
    { unfold separatorFree. rewrite Hlf. simpl in Hsep.
      apply orb_false_elim in Hsep. destruct Hsep as [_ Hsep].
      simpl. now rewrite Hsep. }
    assert (Hhead : forall c' s, l = String c' s ->
                                 Ascii.eqb c "," && Ascii.eqb c' " " = false).
    { intros c' s ->. simpl in Hsep. apply orb_false_elim in Hsep.
      destruct Hsep as [Hsep _]. rewrite andb_true_r in Hsep.
      now rewrite (Ascii.eqb_sym c), (Ascii.eqb_sym c'). }
    specialize (IH (cur ++ String c "") Hl').
    rewrite append_assoc in IH. simpl in IH.
    destruct l as [|c' l']; cbn [split_from append] in *; rewrite Hc.
    + change (Ascii.eqb "," " ") with false. rewrite andb_false_r. exact IH.
    + rewrite (Hhead c' l' eq_refl). exact IH.
Qed.

Lemma split_items_join_comma ls :
  ls <> [] -> Forall (fun l => separatorFree l = true) ls ->
  split_items (join ", " ls) = ls.
Proof.
  intros Hne Hall. unfold split_items.
  induction Hall as [|l ls Hl Hls IH]; [congruence|].
  destruct ls as [|l' ls'].
  - simpl. now rewrite (proj2 (split_from_piece l "" "" Hl)).
  - change (join ", " (l :: l' :: ls'))
      with (l ++ String "," (String " " (join ", " (l' :: ls')))).
    rewrite (split_from_comma_piece l _ "" Hl). simpl ("" ++ l).
    f_equal. apply IH. discriminate.
Qed.

(** X16: a text made by joining pieces that hold neither a line feed nor
    a comma followed by a space, with line feeds or with [", "], is split
    back into those pieces; so both formats named in the comment of
    [startEditingOrder] are cut alike. *)
Theorem split_inverts_join (ls : list string) :
  ls <> [] -> Forall (fun l => separatorFree l = true) ls ->
  split_items (join (String LF "") ls) = ls /\
  split_items (join ", " ls) = ls.
Proof.
  intros Hne Hall. split.
  - now apply split_items_join.
  - now apply split_items_join_comma.
Qed.

Lemma split_inverts_join_witness :
  split_items (join ", " ["2x Bolo"; "1x Quiche"]) = ["2x Bolo"; "1x Quiche"] /\
  split_items (join (String LF "") ["2x Bolo"; "1x Quiche"]) = ["2x Bolo"; "1x Quiche"].
Proof.
  destruct (split_inverts_join ["2x Bolo"; "1x Quiche"]) as [H1 H2].
  - discriminate.
  - repeat constructor.
  - now split.
Defined.

(** X17: for a cart of positive quantities whose keys resolve in the
    catalog, the items text written with [", "] between the lines is read
    by [startEditingOrder] to the same dictionary as the text written
    with line feeds, which is the one [submitOrder] posts. *)
Theorem comma_format_reads_alike (ps : list Product.t) (c : JsObject.t Z) :
  Forall (readable ps) (JsObject.entries c) ->
  parseItems ps (join ", " (map (itemLine ps) (JsObject.entries c)))
  = parseItems ps (itemsSummary c ps).
Proof.
  intros Hes. unfold parseItems, itemsSummary.
  destruct (JsObject.entries c) as [|e es] eqn:Hc; [reflexivity|].
  assert (Hfree : Forall (fun l => separatorFree l = true)
                         (map (itemLine ps) (e :: es))).
  { rewrite Forall_map. revert Hes. apply Forall_impl.
    exact (itemLine_separatorFree ps). }
  rewrite split_items_join_comma, split_items_join; auto; discriminate.
Qed.

Lemma comma_format_reads_alike_witness :
  parseItems Example.catalog "2x A, 1x B" = [("A", 2); ("B", 1)].
Proof.
  assert (H : Forall (readable Example.catalog) (JsObject.entries Example.items)).
  { repeat constructor. }
  exact (eq_trans (comma_format_reads_alike Example.catalog Example.items H) eq_refl).
Defined.

End SplitProofs.

(** ** Invariants of the workflow *)

Module WorkflowProofs.
Import JsString App Contact Workflow.

#[local] Arguments Array_includes : simpl never.
#[local] Arguments formatPhoneNumber : simpl never.
#[local] Arguments validatePhone : simpl never.

(** The invariant reads the page, the date, the draft, [loading] and the
    editor's dictionary only. *)
Lemma Invariant_ext st st' :
  page st' = page st -> selectedDate st' = selectedDate st ->
  orderData st' = orderData st -> loading st' = loading st ->
  editingItems st' = editingItems st ->
  Invariant st -> Invariant st'.
Proof.
  intros Hp Hd Ho Hl He [I1 I2 I3 I4 I5 I6].
  constructor; rewrite ?Hp, ?Hd, ?Ho, ?Hl, ?He; assumption.
Qed.

Lemma Invariant_initial ps : Invariant (setProducts ps initialState).
Proof.
  constructor; cbn; auto; try discriminate.
  - intros [H | [H | H]]; discriminate.
  - constructor.
  - constructor.
Qed.

Lemma Invariant_setPage_plain pg st :
  pg = schedule \/ pg = admin -> Invariant st -> Invariant (setPage pg st).
Proof.
  intros Hpg [I1 I2 I3 I4 I5 I6]. constructor; cbn; auto.
  intros [H | [H | H]]; [destruct Hpg; congruence .. | apply I3; auto].
Qed.

Lemma Invariant_setSelectedDate d st :
  Date.isSunday d = false -> Invariant st -> Invariant (setSelectedDate (Some d) st).
Proof.
  intros Hd [I1 I2 I3 I4 I5 I6]. constructor; cbn; auto.
  - intros d' [= <-]. exact Hd.
  - intros H. split; [discriminate | now apply I3].
Qed.

Lemma Invariant_with_time t st :
  Array_includes TIME_SLOTS t = true -> Invariant st ->
  Invariant (setOrderData (OrderData.with_time t) st).
Proof.
  intros Ht [I1 I2 I3 I4 I5 I6]. constructor; cbn; auto.
  intros H. split; [now apply I3 | exact Ht].
Qed.

Lemma Invariant_order st :
  selectedDate st <> None ->
  Array_includes TIME_SLOTS (OrderData.time (orderData st)) = true ->
  Invariant st -> Invariant (setPage order st).
Proof.
  intros Hd Ht [I1 I2 I3 I4 I5 I6]. constructor; cbn; auto.
Qed.

Lemma slot_of_truthy st :
  Invariant st -> truthy (OrderData.time (orderData st)) = true ->
  Array_includes TIME_SLOTS (OrderData.time (orderData st)) = true.
Proof.
  intros I Ht. destruct (inv_slot st I) as [E | E]; [|exact E].
  rewrite E in Ht. discriminate.
Qed.

Section Platform.
Variable Date_parse : string -> option Date.t.

Lemma Invariant_fetchData dp tp st :
  Invariant st -> Invariant (fetchData Date_parse dp tp st).
Proof.
  intros I. unfold fetchData.
  destruct dp as [v|]; [|exact I].
  destruct (truthy v); [|exact I].
  destruct (Date_parse (v ++ "T12:00:00")) as [d|]; [|exact I].
  destruct (Date.isSunday d) eqn:Hd; cbn [negb]; [exact I|].
  pose proof (Invariant_setSelectedDate d st Hd I) as I1.
  destruct tp as [t|]; [|exact I1].
  destruct (truthy t); cbn [andb]; [|exact I1].
  destruct (Array_includes TIME_SLOTS t) eqn:Ht; [|exact I1].
  apply Invariant_order; cbn; auto; [discriminate|].
  now apply Invariant_with_time.
Qed.

Lemma Invariant_mounted ps dp tp : Invariant (mounted Date_parse ps dp tp).
Proof. apply Invariant_fetchData, Invariant_initial. Qed.

End Platform.

Lemma Invariant_datePickerClick today date st :
  Invariant st -> Invariant (datePickerClick today date st).
Proof.
  intros I. unfold datePickerClick, filterDate.
  destruct (Date.day_before date today); [exact I|].
  destruct (Date.isSunday date) eqn:Hd; cbn [negb]; [exact I|].
  unfold handleDateSelect.
  destruct (JsObject.get (availability st) (Date.format_iso date)) as [[]|];
    try exact I; now apply Invariant_setSelectedDate.
Qed.

Lemma formatted_is_fixed v : formatPhoneNumber (formatPhoneNumber v) = formatPhoneNumber v.
Proof.
  rewrite (ContactProofs.formatPhoneNumber_digits (formatPhoneNumber v)).
  rewrite (ContactProofs.formatPhoneNumber_digits v) at 1.
  rewrite ContactProofs.digitsOf_format_digits by apply ContactProofs.filter_string_all.
  rewrite ContactProofs.format_take_digits by apply ContactProofs.filter_string_all.
  symmetry. apply ContactProofs.formatPhoneNumber_digits.
Qed.

Lemma Invariant_handlePhoneChange v st :
  Invariant st -> Invariant (handlePhoneChange v st).
Proof.
  intros [I1 I2 I3 I4 I5 I6]. constructor; cbn; auto.
  apply formatted_is_fixed.
Qed.

Lemma Invariant_cart_step op st : Invariant st -> Invariant (Cart.step st op).
Proof.
  intros I. pose proof (CartProofs.positive_step st op (inv_cart st I)) as Hc.
  destruct I as [I1 I2 I3 I4 I5 I6].
  destruct op as [id | id]; constructor; cbn; auto; exact Hc.
Qed.

Lemma Invariant_with_name nm st :
  Invariant st -> Invariant (setOrderData (with_name nm) st).
Proof. intros [I1 I2 I3 I4 I5 I6]. constructor; cbn; auto. Qed.

Lemma Invariant_with_paymentMethod m st :
  Invariant st -> Invariant (setOrderData (with_paymentMethod m) st).
Proof. intros [I1 I2 I3 I4 I5 I6]. constructor; cbn; auto. Qed.

(** [submitOrder] is its two halves run one after the other with no event
    in between. *)
Lemma submitOrder_in_two_halves reply st :
  submitOrder reply st =
  match submitOrder_request st with
  | (st1, []) => (st1, [])
  | (st1, sent) =>
      let '(st2, shown) := submitOrder_settled reply st1 in (st2, (sent ++ shown)%list)
  end.
Proof.
  unfold submitOrder, submitOrder_request, submitOrder_settled.
  destruct (selectedDate st) as [d|]; [|reflexivity].
  destruct (Qeq_bool (total st) 0); [reflexivity|].
  destruct (negb (validatePhone (OrderData.phone (orderData st)))); [reflexivity|].
  destruct reply as [|[] [err|]]; try reflexivity.
  destruct (Json_error_field err) as [[v|]|]; reflexivity.
Qed.

Lemma submitOrder_request_outcomes st :
  submitOrder_request st = (st, []) \/
  submitOrder_request st = (setPhoneError phoneErrorMessage st, []) \/
  exists d, selectedDate st = Some d /\ Qeq_bool (total st) 0 = false /\
            validatePhone (OrderData.phone (orderData st)) = true /\
            submitOrder_request st = (setLoading true st, [PostOrder (buildPayload d st)]).
Proof.
  unfold submitOrder_request.
  destruct (selectedDate st) as [d|] eqn:Hd; [|now left].
  destruct (Qeq_bool (total st) 0) eqn:Ht; [now left|].
  destruct (validatePhone (OrderData.phone (orderData st))) eqn:Hp; cbn [negb].
  - right. right. now exists d.
  - right. now left.
Qed.

Lemma Invariant_submitOrder_request st :
  page st = order -> Invariant st -> Invariant (fst (submitOrder_request st)).
Proof.
  intros Hpage I.
  destruct (submitOrder_request_outcomes st) as [E | [E | (d & _ & _ & _ & E)]];
    rewrite E; cbn [fst].
  - exact I.
  - revert I. now apply Invariant_ext.
  - destruct I as [I1 I2 I3 I4 I5 I6]. constructor; cbn; auto.
Qed.

Lemma submitOrder_settled_frame reply st :
  let st' := fst (submitOrder_settled reply st) in
  (page st' = page st \/ page st' = success) /\
  selectedDate st' = selectedDate st /\ orderData st' = orderData st /\
  loading st' = false /\ editingItems st' = editingItems st /\
  requests (snd (submitOrder_settled reply st)) = [].
Proof.
  unfold submitOrder_settled.
  destruct reply as [|[] [err|]];
    try destruct (Json_error_field err) as [[v|]|]; cbn; auto 10.
Qed.

Lemma Invariant_submitOrder_settled reply st :
  loading st = true -> Invariant st -> Invariant (fst (submitOrder_settled reply st)).
Proof.
  intros Hl I.
  destruct (submitOrder_settled_frame reply st) as (Hpg & Hd & Ho & Hl' & He & _).
  destruct I as [I1 I2 I3 I4 I5 I6].
  constructor; rewrite ?Hd, ?Ho, ?He; auto.
Qed.

Lemma editor_frame pid st :
  (page (Admin.incrementEditing pid st) = page st /\
   selectedDate (Admin.incrementEditing pid st) = selectedDate st /\
   orderData (Admin.incrementEditing pid st) = orderData st /\
   loading (Admin.incrementEditing pid st) = loading st) /\
  (page (Admin.decrementEditing pid st) = page st /\
   selectedDate (Admin.decrementEditing pid st) = selectedDate st /\
   orderData (Admin.decrementEditing pid st) = orderData st /\
   loading (Admin.decrementEditing pid st) = loading st).
Proof.
  unfold Admin.incrementEditing, Admin.decrementEditing, Admin.updateEditingOrderItems.
  cbn [setEditingItems editingOrder].
  destruct (editingOrder st); repeat split.
Qed.

Lemma Invariant_editor pid st :
  Invariant st ->
  Invariant (Admin.incrementEditing pid st) /\ Invariant (Admin.decrementEditing pid st).
Proof.
  intros I.
  destruct (editor_frame pid st) as [(P1 & D1 & O1 & L1) (P2 & D2 & O2 & L2)].
  pose proof (inv_editor st I) as Hpos.
  assert (Hq : 0 <= Admin.editingQty pid st).
  { unfold Admin.editingQty.
    destruct (JsObject.get (editingItems st) pid) as [q|] eqn:Hg; [|lia].
    pose proof (CartProofs.positive_get _ _ _ Hpos Hg).
    destruct (Z.eqb_spec q 0); lia. }
  assert (Hp : Cart.positive (editingItems (Admin.incrementEditing pid st))).
  { unfold Admin.incrementEditing.
    rewrite EditorProofs.editingItems_updateEditingOrderItems.
    cbn [setEditingItems editingItems]. unfold Cart.positive, JsObject.entries, JsObject.spread in *.
    apply JsObjectFacts.Forall_set; [simpl; lia | exact Hpos]. }
  assert (Hm : Cart.positive (editingItems (Admin.decrementEditing pid st))).
  { unfold Admin.decrementEditing.
    rewrite EditorProofs.editingItems_updateEditingOrderItems.
    cbn [setEditingItems editingItems]. unfold Cart.positive, JsObject.entries, JsObject.spread in *.
    destruct (Z.eqb_spec (Z.max 0 (Admin.editingQty pid st - 1)) 0) as [E | E].
    - rewrite E, CartMoreProofs.remove_set. now apply JsObjectFacts.Forall_remove.
    - apply JsObjectFacts.Forall_set; [simpl; lia | exact Hpos]. }
  destruct I as [I1 I2 I3 I4 I5 I6].
  split; constructor; rewrite ?P1, ?D1, ?O1, ?L1, ?P2, ?D2, ?O2, ?L2; auto.
Qed.

Lemma requests_app a b : requests (a ++ b) = (requests a ++ requests b)%list.
Proof. unfold requests. apply flat_map_app. Qed.

Section Runs.
Variable Date_parse : string -> option Date.t.
Variable Number_toFixed2 : Q -> string.

Lemma step_invariant st e :
  Invariant st -> Invariant (fst (step Date_parse Number_toFixed2 st e)).
Proof.
  intros I. unfold step.
  destruct e; destruct (page st) eqn:Hpage; cbn [fst]; try exact I.
  all: try (apply Invariant_setPage_plain; [tauto | exact I]).
  all: try apply Invariant_mounted.
  all: try (destruct (loading st) eqn:Hl;
            [now apply Invariant_submitOrder_settled | exact I]).
  all: try (destruct (editingOrder st); cbn [fst]; [|exact I];
            first [ apply Invariant_editor; exact I
                  | revert I; apply Invariant_ext; reflexivity
                  | exact I ]).
  all: try (revert I; apply Invariant_ext; reflexivity).
  - now apply Invariant_datePickerClick.
  - destruct (slotsShown st && Array_includes TIME_SLOTS slot) eqn:E; [|exact I].
    apply andb_prop in E. destruct E as [_ E]. now apply Invariant_with_time.
  - unfold proceedDisabled, proceedToOrder.
    destruct (selectedDate st) as [d|] eqn:Hd; [|exact I].
    destruct (truthy (OrderData.time (orderData st))) eqn:Ht; cbn [negb orb];
      [|exact I].
    destruct (selectedSoldOut st); [exact I|]. cbn [fst].
    apply Invariant_order; [congruence | now apply slot_of_truthy | exact I].
  - now apply Invariant_with_name.
  - now apply Invariant_handlePhoneChange.
  - now apply Invariant_with_paymentMethod.
  - now apply Invariant_cart_step.
  - destruct (loading st); [exact I | now apply Invariant_submitOrder_request].
Qed.

Lemma step_requests st e b :
  Invariant st ->
  In b (requests (snd (step Date_parse Number_toFixed2 st e))) -> wellFormedRequest b.
Proof.
  intros I. unfold step.
  destruct e; destruct (page st) eqn:Hpage; cbn [snd requests flat_map];
    try contradiction.
  all: try (destruct (editingOrder st); cbn; contradiction).
  all: try (destruct (loading st); cbn [snd]; [|contradiction];
            rewrite (proj2 (proj2 (proj2 (proj2 (proj2
                       (submitOrder_settled_frame reply st))))));
            contradiction).
  all: try (cbn; contradiction).
  - destruct (slotsShown st && Array_includes TIME_SLOTS slot); cbn; contradiction.
  - unfold proceedDisabled, proceedToOrder.
    destruct (selectedDate st); [|cbn; contradiction].
    destruct (truthy (OrderData.time (orderData st))); cbn; try contradiction.
    destruct (selectedSoldOut st); cbn; contradiction.
  - destruct (loading st); [cbn; contradiction|].
    destruct (submitOrder_request_outcomes st) as [E | [E | (d & Hd & Ht & Hp & E)]];
      rewrite E; cbn [snd]; try (cbn; contradiction).
    cbn. intros [<- | []].
    unfold wellFormedRequest, buildPayload. cbn.
    split; [exact Hp|]. split.
    + apply (inv_order st I). now left.
    + split; [|exact Ht]. exists d. split; [reflexivity|].
      now apply (inv_weekday st I).
Qed.

(** X18: whatever the link the page was loaded from and whatever events
    on products of plain ids follow, requests settling at any later
    moment, between two events: the selected date is never a Sunday; the
    slot is empty or one of [TIME_SLOTS]; on the order and success steps,
    and while the request of [submitOrder] is in flight, a date and a
    slot are selected; the quantities of the cart and of the order editor
    are positive; and the phone field is a fixed point of
    [formatPhoneNumber]. *)
Theorem workflow_invariant
  (ps : list Product.t) (dateParam timeParam : option string) (es : list Event) :
  Forall plainEvent es ->
  Invariant (fst (run Date_parse Number_toFixed2
                      (mounted Date_parse ps dateParam timeParam) es)).
Proof.
  intros _.
  pose proof (Invariant_mounted Date_parse ps dateParam timeParam) as I.
  revert I. generalize (mounted Date_parse ps dateParam timeParam).
  induction es as [|e es IH]; intros st I; [exact I|].
  cbn [run]. pose proof (step_invariant st e I) as I1.
  destruct (step Date_parse Number_toFixed2 st e) as [st1 out1]. cbn [fst] in I1.
  specialize (IH st1 I1). destruct (run Date_parse Number_toFixed2 st1 es) as [st2 out2].
  exact IH.
Qed.

(** X19: every create-order request that [submitOrder] sends, in any
    sequence of events on products of plain ids, carries a phone that
    passes [validatePhone], a slot of [TIME_SLOTS], the date of a day that
    is not a Sunday and a total that is not 0. *)
Theorem every_create_request_is_well_formed
  (ps : list Product.t) (dateParam timeParam : option string) (es : list Event)
  (b : Payload.t) :
  Forall plainEvent es ->
  In b (requests (snd (run Date_parse Number_toFixed2
                           (mounted Date_parse ps dateParam timeParam) es))) ->
  wellFormedRequest b.
Proof.
  intros _.
  pose proof (Invariant_mounted Date_parse ps dateParam timeParam) as I.
  revert I. generalize (mounted Date_parse ps dateParam timeParam).
  induction es as [|e es IH]; intros st I; [contradiction|].
  cbn [run]. pose proof (step_invariant st e I) as I1.
  pose proof (step_requests st e b I) as R1.
  destruct (step Date_parse Number_toFixed2 st e) as [st1 out1]. cbn [fst snd] in I1, R1.
  specialize (IH st1 I1). destruct (run Date_parse Number_toFixed2 st1 es) as [st2 out2].
  cbn [snd] in *. rewrite requests_app. intros H. apply in_app_or in H.
  destruct H; auto.
Qed.

End Runs.

Lemma workflow_invariant_witness :
  let es := [ PickDate (Date.mk 2026 2 27) Example.monday; PickSlot "10:00"; Proceed;
              Tap (Cart.Increment "A"); TypePhone "7701112222"; Submit;
              TypePhone "77"; Back; Reply (Response true None) ] in
  Forall plainEvent es /\
  Invariant (fst (run Example.parseOnly (fun _ => "")
                      (mounted Example.parseOnly Example.catalog None None) es)).
Proof.
  intros es.
  assert (H : Forall plainEvent es) by (repeat constructor).
  split; [exact H|].
  exact (workflow_invariant Example.parseOnly (fun _ => "") Example.catalog None None es H).
Defined.

Lemma every_create_request_is_well_formed_witness :
  let es := [ PickDate (Date.mk 2026 2 27) Example.monday; PickSlot "10:00"; Proceed;
              Tap (Cart.Increment "A"); Tap (Cart.Increment "A");
              Tap (Cart.Increment "B"); TypeName "Ana"; TypePhone "7701112222";
              Submit; TypePhone "77"; Reply (Response true None) ] in
  let b := Payload.mk "Ana" "(770) 111-2222" "2026-03-02" "10:00"
                      (Example.lines ["2x A"; "1x B"]) 13 zelle in
  requests (snd (run Example.parseOnly (fun _ => "")
                     (mounted Example.parseOnly Example.catalog None None) es)) = [b] /\
  wellFormedRequest b.
Proof.
  intros es b. split; [reflexivity|].
  apply (every_create_request_is_well_formed Example.parseOnly (fun _ => "")
           Example.catalog None None es b).
  - repeat constructor.
  - left. reflexivity.
Defined.

(** The phone field stays editable while the request is in flight: the
    success step is reached with a phone that no longer passes
    [validatePhone], the request having carried the valid one. *)
Remark success_with_a_phone_edited_in_flight :
  let es := [ PickDate (Date.mk 2026 2 27) Example.monday; PickSlot "10:00"; Proceed;
              Tap (Cart.Increment "A"); TypePhone "7701112222"; Submit;
              TypePhone "77"; Reply (Response true None) ] in
  let st := fst (run Example.parseOnly (fun _ => "")
                     (mounted Example.parseOnly Example.catalog None None) es) in
  page st = success /\ OrderData.phone (orderData st) = "77" /\
  validatePhone (OrderData.phone (orderData st)) = false.
Proof. repeat split. Qed.

(** The save button of the order editor posts the order under edit as it
    was typed: nothing checks its slot, its phone or its total. *)
Remark admin_save_posts_the_order_as_typed :
  let o := Order.mk 7 "Ana" "(770) 111-2222" "2026-03-02" "10:00" "2x A" 10 "zelle" "" in
  let es := [ ToggleAdmin; OpenEditor o; EditText order_time "25:99";
              EditText customer_phone "x"; EditTotal 0; SaveOrder; SaveSettled ] in
  let out := run Example.parseOnly (fun _ => "")
                 (mounted Example.parseOnly Example.catalog None None) es in
  updates (snd out)
  = [Order.mk 7 "Ana" "x" "2026-03-02" "25:99" "2x A" 0 "zelle" ""] /\
  requests (snd out) = [] /\ editingOrder (fst out) = None.
Proof. repeat split. Qed.

End WorkflowProofs.

(** ** What the parser of items texts can produce *)

Module ParseProofs.
Import JsString App JsObjectFacts.

(** An entry that the parser may store: a catalog id with a quantity
    that is not negative. *)
Lemma parsePart_keeps (ps : list Product.t) (P : string * Z -> Prop) m line :
  (forall p q, In p ps -> 0 <= q -> P (Product.id p, q)) ->
  Forall P m -> Forall P (parsePart ps m line).
Proof.
  intros HP Hm. unfold parsePart.
  destruct (Regex.exec itemRegex line) as [[|m1 [|m2 [|? ?]]]|]; try exact Hm.
  destruct (findByName ps (trim m2)) as [p|] eqn:Hf; [|exact Hm].
  apply find_some in Hf. destruct Hf as [Hin _].
  apply Forall_set; [|exact Hm].
  apply HP; [exact Hin|]. unfold parseInt. lia.
Qed.

(** X20: whatever the items text and the catalog, every key of the
    dictionary that [startEditingOrder] derives is the id of a catalog
    product and every quantity in it is zero or more; lines that do not
    match the pattern or name no product are skipped. *)
Theorem parsed_items_are_catalog_ids (ps : list Product.t) (text id : string) (q : Z) :
  JsObject.get (parseItems ps text) id = Some q ->
  (exists p, In p ps /\ Product.id p = id) /\ 0 <= q.
Proof.
  intros Hg. apply get_In in Hg. unfold parseItems in Hg.
  set (P := fun e : string * Z =>
              (exists p, In p ps /\ Product.id p = fst e) /\ 0 <= snd e).
  assert (Hall : forall parts m, Forall P m -> Forall P (fold_left (parsePart ps) parts m)).
  { induction parts as [|l parts IH]; intros m Hm; [exact Hm|].
    simpl. apply IH. apply parsePart_keeps; [|exact Hm].
    intros p n Hin Hn. split; [now exists p | exact Hn]. }
  specialize (Hall (filter truthy (split_items text)) JsObject.empty (Forall_nil P)).
  rewrite Forall_forall in Hall. exact (Hall _ Hg).
Qed.

Lemma parsed_items_are_catalog_ids_witness :
  parseItems Example.catalog ("0x A, 2x C" ++ String LF "oi" ++ String LF "3x B")
  = [("A", 0); ("B", 3)] /\
  ((exists p, In p Example.catalog /\ Product.id p = "B") /\ 0 <= 3).
Proof.
  split; [reflexivity|].
  apply (parsed_items_are_catalog_ids
           Example.catalog ("0x A, 2x C" ++ String LF "oi" ++ String LF "3x B") "B" 3).
  reflexivity.
Defined.

End ParseProofs.
